(** * Qwen2-VL chat model: generation orchestration and streaming bridge

    A shallow embedding of [xinference/model/llm/transformers/qwen2_vl.py]:
    [chat], [_generate] and the generator [_generate_stream], with the
    properties of the two result shapes, of the defaults handed to the
    engine, of the fragments of a stream and of the way failures reach the
    caller.

    - The model engine (processor, [qwen_vl_utils], model) is an external
      collaborator: a record of functions, and every theorem holds for
      every such record. Each operation on it is logged in the [world].
    - Code that returns or raises is a computation in [M]: it gives a
      value or an exception, and the world it leaves.
    - The generator of [_generate_stream] is a state machine, advanced by
      [next]. Creating it runs nothing.
    - The thread of a stream is given by what it pushes to the streamer,
      how long the consumer waits at the queue for each push, and how
      [generate] ends; [Queue.get] gives up when a wait reaches the
      streamer's timeout.
    - The helpers of the package that the module imports
      ([generate_chat_completion], [generate_completion_chunk],
      [_transform_messages], [_to_chat_completion_chunks], [cache_clean])
      are modelled from the specification; each says so. *)

From Stdlib Require Import ZArith QArith String List Lia.
From stdpp Require Import base option list gmap strings pretty.

Close Scope Q_scope.
Open Scope string_scope.
Open Scope list_scope.

(** ** Python values and dictionaries *)

(** The values a generate config can hold. A Python float is kept as a
    rational: none of the code below computes with it. *)
Inductive pyval : Type :=
| PyNone
| PyBool (b : bool)
| PyInt (n : Z)
| PyFloat (q : Q)
| PyStr (s : string).

(** [bool(v)]: the truth value Python gives [v] in [if v:]. *)
Definition truthy (v : pyval) : bool :=
  match v with
  | PyNone => false
  | PyBool b => b
  | PyInt n => negb (n =? 0)%Z
  | PyFloat q => negb (Qeq_bool q 0)
  | PyStr s => negb (String.eqb s "")
  end.

(** [a == b] on values, with Python's numeric tower: [1 == 1.0] and
    [True == 1]. *)
Definition py_num (v : pyval) : option Q :=
  match v with
  | PyBool b => Some (inject_Z (if b then 1 else 0))
  | PyInt n => Some (inject_Z n)
  | PyFloat q => Some q
  | _ => None
  end.

Definition py_eq (a b : pyval) : bool :=
  match py_num a, py_num b with
  | Some x, Some y => Qeq_bool x y
  | _, _ =>
      match a, b with
      | PyNone, PyNone => true
      | PyStr s, PyStr t => String.eqb s t
      | _, _ => false
      end
  end.

(** A [PytorchGenerateConfig] is a dict with string keys. *)
Abbreviation dict := (gmap string pyval).

(** [d.get(k, dflt)] *)
Definition get (d : dict) (k : string) (dflt : pyval) : pyval :=
  default dflt (d !! k).

(** [bool(d)] for a dict: false exactly on the empty dict. *)
Definition dict_truthy (d : dict) : bool := negb (Nat.eqb (size d) 0).

(** ** Exceptions, outcomes and the world *)

(** An exception object: its class, whether that class derives from
    [Exception] (and so is caught by [except Exception]), and its
    [__traceback__]. *)
Record exception : Type := {
  exc_class : string;
  exc_is_Exception : bool;
  exc_traceback : list string;
}.

(** [err.with_traceback(tb)] sets [__traceback__] and returns [err]. *)
Definition with_traceback (err : exception) (tb : list string) : exception :=
  {| exc_class := exc_class err;
     exc_is_Exception := exc_is_Exception err;
     exc_traceback := tb |}.

(** [sys.exc_info()] in a handler: (type, value, traceback). *)
Definition exc_info (e : exception) : string * exception * list string :=
  (exc_class e, e, exc_traceback e).

(** What a call does: it returns a value or raises. *)
Inductive outcome (A : Type) : Type :=
| Return (a : A)
| Raise (e : exception).
Arguments Return {A} a.
Arguments Raise {A} e.

(** A conversation turn. *)
Record message : Type := {
  role : string;
  content : string;
}.

(** Images or videos extracted from a conversation ([None] when absent). *)
Abbreviation vision := (option (list string)).

(** The processor's output ([BatchFeature]): the token ids of the batch and
    the device the tensors live on. *)
Record BatchFeature : Type := {
  input_ids : list (list Z);
  on_device : string;
}.

(** [TextIteratorStreamer(tokenizer, timeout=..., skip_prompt=...,
    skip_special_tokens=...)]. [timeout] is in seconds. *)
Record TextIteratorStreamer : Type := {
  timeout : Q;
  skip_prompt : bool;
  skip_special_tokens : bool;
}.

(** The keyword arguments of [self._model.generate]. *)
Record gen_kwargs : Type := {
  kw_inputs : BatchFeature;
  max_new_tokens : pyval;
  temperature : pyval;
  streamer : option TextIteratorStreamer;
}.

(** One run of [self._model.generate] on its keyword arguments. With a
    streamer, the run pushes decoded text to it; [pushed] lists each text
    with the time the consumer spends waiting at the queue for it. The run
    then returns the generated ids or raises, [finish_wait] being the
    consumer's wait for that moment. A run that returns has called
    [streamer.end()] itself: the text that call queues is the last of
    [pushed]. A run that raises leaves the streamer with the text it has
    decoded and not queued yet, [held_back], the empty string when there
    is none. *)
Record generation : Type := {
  pushed : list (Q * string);
  finish_wait : Q;
  finish : outcome (list (list Z));
  held_back : string;
}.

(** The external collaborator: the processor, [qwen_vl_utils] and the
    model, as the functions the orchestration calls. *)
Record ModelEngine : Type := {
  (* self._processor.apply_chat_template(messages, tokenize=False, ...) *)
  apply_chat_template : list message -> outcome string;
  (* qwen_vl_utils.process_vision_info(messages) *)
  process_vision_info : list message -> outcome (vision * vision);
  (* self._processor(text=..., images=..., videos=..., ...) *)
  processor : list string -> vision -> vision -> outcome BatchFeature;
  (* inputs.to(device) *)
  to : BatchFeature -> string -> outcome BatchFeature;
  (* self._model.device *)
  device : string;
  (* self._model.generate, applied to the keyword arguments *)
  generate : gen_kwargs -> generation;
  (* self._processor.batch_decode(ids, skip_special_tokens=True, ...) *)
  batch_decode : list (list Z) -> outcome (list string);
}.

(** The engine operations a call performs, in order. *)
Inductive engine_call : Type :=
| CallApplyChatTemplate (messages : list message)
| CallProcessVisionInfo (messages : list message)
| CallProcessor (text : list string) (images videos : vision)
| CallTo (dev : string)
| CallGenerate (kwargs : gen_kwargs)
| CallBatchDecode (ids : list (list Z)).

(** The state outside the orchestration: the log of engine operations and
    the clock of [uuid.uuid1()], which never hands out a value twice. *)
Record world : Type := {
  calls : list engine_call;
  uuid_clock : N;
}.

(** Computations that read and change the world and may raise; what was
    done before an exception stays done. *)
Definition M (A : Type) : Type := world -> outcome A * world.

Definition ret {A} (a : A) : M A := fun w => (Return a, w).

Definition raise {A} (e : exception) : M A := fun w => (Raise e, w).

Definition bind {A B} (m : M A) (k : A -> M B) : M B :=
  fun w =>
    match m w with
    | (Return a, w') => k a w'
    | (Raise e, w') => (Raise e, w')
    end.

Notation "'let*' x ':=' m 'in' k" := (bind m (fun x => k))
  (at level 10, x name, m at level 100, k at level 200).
Notation "'let*' ' p ':=' m 'in' k" := (bind m (fun x => let 'p := x in k))
  (at level 10, p pattern, m at level 100, k at level 200).

(** An engine operation: logged, then its outcome. *)
Definition engine_op {A} (c : engine_call) (r : outcome A) : M A :=
  fun w => (r, {| calls := calls w ++ [c]; uuid_clock := uuid_clock w |}).

(** [uuid.uuid1()] *)
Definition uuid1 : M N :=
  fun w => (Return (uuid_clock w),
            {| calls := calls w; uuid_clock := N.succ (uuid_clock w) |}).

(** [str(u)] for a UUID. *)
Definition str (u : N) : string := pretty u.

(** [l[0]] *)
Definition IndexError : exception :=
  {| exc_class := "IndexError"; exc_is_Exception := true;
     exc_traceback := ["_generate"] |}.

Definition item0 {A} (l : list A) : M A :=
  match l with
  | x :: _ => ret x
  | [] => raise IndexError
  end.

(** ** Response objects and the helpers of [..utils] and [.core] *)

Record Usage : Type := {
  prompt_tokens : Z;
  completion_tokens : Z;
  total_tokens : Z;
}.

(** A streamed fragment. *)
Record CompletionChunk : Type := {
  id : string;
  model : string;
  delta_text : option string;
  finish_reason : option string;
  usage : Usage;
}.

(** The answer of a call without streaming. *)
Record ChatCompletion : Type := {
  completion_model : string;
  completion_text : string;
  completion_finish_reason : option string;
  completion_usage : Usage;
}.

(** The sentinel of a token count that was not computed. *)
Definition unknown : Z := -1.

(** Modelled from the spec: [generate_completion_chunk] is defined in
    [..utils], outside the module verified here. The spec's Chunk
    Formatter is a pure mapping from (text-or-null, finish-reason-or-null,
    stream id, model id, usage counters) to the wire shape [{ id, model,
    delta_text, finish_reason, usage }]. The flags [has_choice] and
    [has_content] of the call sites have no counterpart in that
    mapping. *)
Definition generate_completion_chunk
    (chunk_text : option string) (finish_reason : option string)
    (chunk_id model_uid : string)
    (prompt_tokens completion_tokens total_tokens : Z)
    (has_choice has_content : bool) : CompletionChunk :=
  {| id := chunk_id;
     model := model_uid;
     delta_text := chunk_text;
     finish_reason := finish_reason;
     usage := {| prompt_tokens := prompt_tokens;
                 completion_tokens := completion_tokens;
                 total_tokens := total_tokens |} |}.

(** Modelled from the spec: [generate_chat_completion] is defined in
    [..utils], outside the module verified here. It is the same pure
    mapping, to the wire shape [{ model, text, finish_reason, usage }] of
    a complete answer. An argument the caller leaves out is [None] here:
    a finish reason left out is ["stop"] (the finish reason of every
    successful answer), a usage counter left out was not computed and is
    the data model's sentinel for that, -1. The mapping is pure, so it
    draws no identifier. *)
Definition generate_chat_completion
    (model_uid response : string)
    (prompt_tokens completion_tokens total_tokens : option Z)
    (finish_reason : option string) : ChatCompletion :=
  {| completion_model := model_uid;
     completion_text := response;
     completion_finish_reason := Some (default "stop" finish_reason);
     completion_usage :=
       {| prompt_tokens := default unknown prompt_tokens;
          completion_tokens := default unknown completion_tokens;
          total_tokens := default unknown total_tokens |} |}.

Definition ValidationError : exception :=
  {| exc_class := "ValidationError"; exc_is_Exception := true;
     exc_traceback := ["chat"; "_transform_messages"] |}.

(** Modelled from the spec: the roles of a conversation are "one of a fixed
    enumeration", which the spec does not list; the three roles of a chat
    conversation stand for it. *)
Definition roles : list string := ["system"; "user"; "assistant"].

(** Modelled from the spec: [_transform_messages] is a method of the base
    class, defined outside the module verified here. It is the one step
    of [chat] that comes before the engine, so the spec's input validation
    lives here: "messages must be non-empty; malformed role values fail
    fast with a ValidationError before any engine invocation". A
    conversation that passes is handed on as it is. *)
Definition _transform_messages (messages : list message) : M (list message) :=
  match messages with
  | [] => raise ValidationError
  | _ =>
      if forallb (fun m => bool_decide (role m ∈ roles)) messages
      then ret messages
      else raise ValidationError
  end.

(** Modelled from the spec: the decorator [cache_clean] is defined in
    [.utils], outside the module verified here. The orchestrator has "no
    side effects beyond invoking the Model Engine" and "no caching", so
    the decorated function is the function. *)
Definition cache_clean {A : Type} (fn : A) : A := fn.

(** ** The model object *)

(** [Qwen2VLChatModel] after [load]: its uid, the device chosen by
    [select_device], and the loaded processor, tokenizer and model. *)
Record Qwen2VLChatModel : Type := {
  model_uid : string;
  _device : string;
  engine : ModelEngine;
}.

(** The list comprehension of [_generate]: [out_ids[len(in_ids):]] for
    each [in_ids, out_ids] of [zip(inputs.input_ids, generated_ids)]. *)
Fixpoint trim (input_ids generated_ids : list (list Z)) : list (list Z) :=
  match input_ids, generated_ids with
  | in_ids :: input_ids, out_ids :: generated_ids =>
      drop (length in_ids) out_ids :: trim input_ids generated_ids
  | _, _ => []
  end.

(** [_generate]: the blocking path. *)
Definition _generate (self : Qwen2VLChatModel) (messages : list message)
    (config : dict) : M ChatCompletion :=
  let eng := engine self in
  (* Preparation for inference *)
  let* text := engine_op (CallApplyChatTemplate messages)
                         (apply_chat_template eng messages) in
  let* '(image_inputs, video_inputs) :=
       engine_op (CallProcessVisionInfo messages)
                 (process_vision_info eng messages) in
  let* inputs := engine_op (CallProcessor [text] image_inputs video_inputs)
                           (processor eng [text] image_inputs video_inputs) in
  let* inputs := engine_op (CallTo (_device self))
                           (to eng inputs (_device self)) in
  (* Inference: generation of the output *)
  let kwargs := {| kw_inputs := inputs;
                   max_new_tokens := get config "max_tokens" (PyInt 512);
                   temperature := get config "temperature" (PyInt 1);
                   streamer := None |} in
  let* generated_ids := engine_op (CallGenerate kwargs)
                                  (finish (generate eng kwargs)) in
  let generated_ids_trimmed := trim (input_ids inputs) generated_ids in
  let* decoded := engine_op (CallBatchDecode generated_ids_trimmed)
                            (batch_decode eng generated_ids_trimmed) in
  let* output_text := item0 decoded in
  ret (generate_chat_completion (model_uid self) output_text
                                None None None None).

(** ** The streaming bridge *)

(** [queue.Empty], raised by [Queue.get(timeout=...)] inside
    [TextIteratorStreamer.__next__] when nothing arrives in time. *)
Definition queue_Empty : exception :=
  {| exc_class := "queue.Empty"; exc_is_Exception := true;
     exc_traceback := ["_generate_stream"; "TextIteratorStreamer.__next__";
                       "Queue.get"] |}.

(** What [next(streamer)] gives the consumer. *)
Inductive streamed : Type :=
| NewText (new_text : string)
| EndOfStream
| TimedOut.

(** [Queue.get(timeout=t)] returns an item that arrives before [t] has
    passed. *)
Definition in_time (s : TextIteratorStreamer) (wait : Q) : bool :=
  negb (Qle_bool (timeout s) wait).

(** The value of the variable [error] of [_generate_stream]. *)
Abbreviation error_slot := (option (string * exception * list string)).

(** What the queue of the streamer holds: a text or the stop signal. *)
Inductive queued : Type :=
| Text (text : string)
| stop_signal.

(** [TextIteratorStreamer.__next__], once [Queue.get] has handed over an
    item: the stop signal ends the iteration, a text is returned. *)
Definition taken (item : queued) : streamed :=
  match item with
  | Text text => NewText text
  | stop_signal => EndOfStream
  end.

(** [streamer.end()]: the streamer queues the text it holds back, the
    empty string when it holds none, and then the stop signal. *)
Definition streamer_end (held_back : string) : list queued :=
  [Text held_back; stop_signal].

(** The end of [model_generate], the target of the thread. When
    [generate] returns, it has ended the stream itself, and the stop
    signal follows its last push. When it raises an [Exception], the
    handler stores [sys.exc_info()] in [error], calls [streamer.end()] and
    raises again. Any other exception passes the handler by, and nothing
    ends the stream. The result is the new value of [error] and what the
    end of the thread puts on the queue. *)
Definition model_generate (thread : generation) (error : error_slot)
    : error_slot * list queued :=
  match finish thread with
  | Return _ => (error, [stop_signal])
  | Raise e =>
      if exc_is_Exception e
      then (Some (exc_info e), streamer_end (held_back thread))
      else (error, [])
  end.

(** One [next(streamer)] while the thread runs. [queue] is what the end
    of the thread has queued and the consumer has not taken: [Queue.get]
    hands over its first item at once. With nothing queued, it hands over
    the thread's next push, or the first item that the end of
    [model_generate] queues, if that comes in time; it raises
    [queue.Empty] otherwise. *)
Definition streamer_next (s : TextIteratorStreamer) (thread : generation)
    (queue : list queued) (error : error_slot)
    : streamed * generation * list queued * error_slot :=
  match queue with
  | item :: queue => (taken item, thread, queue, error)
  | [] =>
      match pushed thread with
      | (wait, new_text) :: rest =>
          if in_time s wait
          then (NewText new_text,
                {| pushed := rest; finish_wait := finish_wait thread;
                   finish := finish thread; held_back := held_back thread |},
                [], error)
          else (TimedOut, thread, [], error)
      | [] =>
          match model_generate thread error with
          | (error', item :: queue) =>
              if in_time s (finish_wait thread)
              then (taken item, thread, queue, error')
              else (TimedOut, thread, [], error)
          | (_, []) => (TimedOut, thread, [], error)
          end
      end
  end.

(** The generator object of [_generate_stream]: not started, suspended at
    the [yield] of the loop, suspended at the last [yield], or finished. *)
Inductive generator : Type :=
| Created (messages : list message) (config : dict)
| InLoop (completion_id : string) (s : TextIteratorStreamer)
         (thread : generation) (queue : list queued) (error : error_slot)
| AtLastYield
| Finished.

(** What [next(it)] gives. An exception is the object the [raise]
    statement was given; the frames Python notes on it on the way up to
    the caller are left out. *)
Inductive pulled : Type :=
| Yielded (chunk : CompletionChunk)
| StopIteration
| Raised (e : exception).

(** The body of [_generate_stream] up to the loop: the preparation, the
    streamer, the keyword arguments, the start of the thread and the
    identifier of the stream. The variable [error] starts as [None]. *)
Definition stream_start (self : Qwen2VLChatModel) (messages : list message)
    (config : dict) : M (string * TextIteratorStreamer * generation) :=
  let eng := engine self in
  let* text := engine_op (CallApplyChatTemplate messages)
                         (apply_chat_template eng messages) in
  let* '(image_inputs, video_inputs) :=
       engine_op (CallProcessVisionInfo messages)
                 (process_vision_info eng messages) in
  let* inputs := engine_op (CallProcessor [text] image_inputs video_inputs)
                           (processor eng [text] image_inputs video_inputs) in
  let* inputs := engine_op (CallTo (device eng))
                           (to eng inputs (device eng)) in
  let s := {| timeout := 60; skip_prompt := true;
              skip_special_tokens := true |} in
  let gen_kwargs := {| kw_inputs := inputs;
                       max_new_tokens := get config "max_tokens" (PyInt 512);
                       temperature := get config "temperature" (PyInt 1);
                       streamer := Some s |} in
  (* thread = Thread(target=model_generate); thread.start() *)
  let* thread := engine_op (CallGenerate gen_kwargs)
                           (Return (generate eng gen_kwargs)) in
  let* u := uuid1 in
  ret (str u, s, thread).

(** The loop [for new_text in streamer] from its head, and what follows
    it. *)
Definition stream_loop (self : Qwen2VLChatModel) (completion_id : string)
    (s : TextIteratorStreamer) (thread : generation)
    (queue : list queued) (error : error_slot) : pulled * generator :=
  match streamer_next s thread queue error with
  | (NewText new_text, thread, queue, error) =>
      (Yielded (generate_completion_chunk (Some new_text) None
                  completion_id (model_uid self) (-1) (-1) (-1) true true),
       InLoop completion_id s thread queue error)
  | (EndOfStream, _, _, error) =>
      match error with
      | Some (_, err, tb) => (Raised (with_traceback err tb), Finished)
      | None =>
          (Yielded (generate_completion_chunk None (Some "stop")
                      completion_id (model_uid self) (-1) (-1) (-1)
                      true false),
           AtLastYield)
      end
  | (TimedOut, _, _, _) => (Raised queue_Empty, Finished)
  end.

(** [next(it)] on the generator. *)
Definition next (self : Qwen2VLChatModel) (it : generator) (w : world)
    : pulled * generator * world :=
  match it with
  | Created messages config =>
      match stream_start self messages config w with
      | (Return (completion_id, s, thread), w') =>
          (stream_loop self completion_id s thread [] None, w')
      | (Raise e, w') => (Raised e, Finished, w')
      end
  | InLoop completion_id s thread queue error =>
      (stream_loop self completion_id s thread queue error, w)
  | AtLastYield => (StopIteration, Finished, w)
  | Finished => (StopIteration, Finished, w)
  end.

(** Calling the generator function [_generate_stream] runs none of its
    body: it makes the generator object. *)
Definition _generate_stream (self : Qwen2VLChatModel)
    (messages : list message) (config : dict) : generator :=
  Created messages config.

(** Modelled from the spec: [_to_chat_completion_chunks] is a method of
    the base class, defined outside the module verified here. With
    streaming the orchestrator "delegates to the Streaming Bridge and
    returns the lazy sequence it produces; does not itself block or
    buffer". *)
Definition _to_chat_completion_chunks (it : generator) : generator := it.

(** ** The entry point *)

(** The two shapes of an answer. *)
Inductive chat_result : Type :=
| Completion (c : ChatCompletion)
| Chunks (it : generator).

(** [chat], under its decorator. A [generate_config] that is not given is
    [None]. *)
Definition chat : Qwen2VLChatModel -> list message -> option dict ->
                  M chat_result :=
  cache_clean (fun self messages generate_config =>
    let* messages := _transform_messages messages in
    let generate_config :=
      match generate_config with
      | Some d => if dict_truthy d then d else ∅
      | None => ∅
      end in
    let stream :=
      if dict_truthy generate_config
      then get generate_config "stream" (PyBool false)
      else PyBool false in
    if truthy stream
    then
      let it := _generate_stream self messages generate_config in
      ret (Chunks (_to_chat_completion_chunks it))
    else
      let* c := _generate self messages generate_config in
      ret (Completion c)).

(** A consumer that pulls until the sequence ends, as [for chunk in it]
    does; [fuel] bounds the number of pulls. *)
Inductive stream_end : Type :=
| Stopped
| Failed (e : exception).

Fixpoint consume (fuel : nat) (self : Qwen2VLChatModel) (it : generator)
    (w : world) : list CompletionChunk * option stream_end * world :=
  match fuel with
  | O => ([], None, w)
  | S fuel =>
      match next self it w with
      | (Yielded chunk, it, w) =>
          let '(chunks, e, w) := consume fuel self it w in
          (chunk :: chunks, e, w)
      | (StopIteration, _, w) => ([], Some Stopped, w)
      | (Raised e, _, w) => ([], Some (Failed e), w)
      end
  end.

(** ** What the consumer of a stream observes *)

(** The fragment the loop yields for one piece of text, and the fragment
    yielded after the loop. *)
Definition text_chunk (self : Qwen2VLChatModel) (completion_id : string)
    (new_text : string) : CompletionChunk :=
  generate_completion_chunk (Some new_text) None completion_id
    (model_uid self) (-1) (-1) (-1) true true.

Definition stop_chunk (self : Qwen2VLChatModel) (completion_id : string)
    : CompletionChunk :=
  generate_completion_chunk None (Some "stop") completion_id
    (model_uid self) (-1) (-1) (-1) true false.

(** The pushes that reach the consumer: those before the first one that
    comes too late. *)
Fixpoint delivered (s : TextIteratorStreamer) (pushes : list (Q * string))
    : list string :=
  match pushes with
  | (wait, new_text) :: rest =>
      if in_time s wait then new_text :: delivered s rest else []
  | [] => []
  end.

(** No push and no end of the run keeps the consumer waiting for the
    streamer's timeout or longer. *)
Definition timely (s : TextIteratorStreamer) (run : generation) : bool :=
  forallb (fun p => in_time s (fst p)) (pushed run)
  && in_time s (finish_wait run).

(** How a stream ends for the consumer, by the run of the producer. *)
Definition ending (s : TextIteratorStreamer) (run : generation) : stream_end :=
  if timely s run
  then
    match finish run with
    | Return _ => Stopped
    | Raise e => if exc_is_Exception e then Failed e else Failed queue_Empty
    end
  else Failed queue_Empty.

Definition last_chunks (self : Qwen2VLChatModel) (completion_id : string)
    (e : stream_end) : list CompletionChunk :=
  match e with
  | Stopped => [stop_chunk self completion_id]
  | Failed _ => []
  end.

(** The text that the handler's [streamer.end()] queues when [generate]
    raises an [Exception], if the consumer is there to take it. *)
Definition flushed (s : TextIteratorStreamer) (run : generation)
    : list string :=
  if timely s run
  then
    match finish run with
    | Return _ => []
    | Raise e => if exc_is_Exception e then [held_back run] else []
    end
  else [].

(** The fragments of a stream with the identifier [completion_id], by the
    run of the producer. *)
Definition fragments (self : Qwen2VLChatModel) (completion_id : string)
    (s : TextIteratorStreamer) (run : generation) : list CompletionChunk :=
  map (text_chunk self completion_id)
      (delivered s (pushed run) ++ flushed s run)
  ++ last_chunks self completion_id (ending s run).

(** A sample engine, for the examples: it prepares any conversation and
    runs [run]. *)
Definition sample_engine (run : generation) : ModelEngine :=
  {| apply_chat_template := fun _ => Return "<|im_start|>user";
     process_vision_info := fun _ => Return (None, None);
     processor := fun _ _ _ =>
       Return {| input_ids := [[11; 12; 13]%Z]; on_device := "cpu" |};
     to := fun inputs dev =>
       Return {| input_ids := input_ids inputs; on_device := dev |};
     device := "cuda:0";
     generate := fun _ => run;
     batch_decode := fun ids => Return (map (fun _ => "Hello world") ids) |}.

Definition sample_model (run : generation) : Qwen2VLChatModel :=
  {| model_uid := "qwen2-vl-instruct-0"; _device := "cuda";
     engine := sample_engine run |}.

Definition hello : list message := [{| role := "user"; content := "Hi" |}].

Definition w0 : world := {| calls := []; uuid_clock := 7 |}.

(** A run that pushes three texts and returns. *)
Definition run_ok : generation :=
  {| pushed := [(2, "Hel"); (0.5, "lo"); (0.5, " world")]%Q;
     finish_wait := 0.1%Q;
     finish := Return [[11; 12; 13; 21; 22; 23]%Z];
     held_back := "" |}.

(** A run that pushes two texts and raises. *)
Definition RuntimeError : exception :=
  {| exc_class := "RuntimeError"; exc_is_Exception := true;
     exc_traceback := ["model_generate"; "generate"; "forward"] |}.

Definition run_fails : generation :=
  {| pushed := [(2, "par"); (0.5, "tial")]%Q;
     finish_wait := 0.1%Q;
     finish := Raise RuntimeError;
     held_back := "" |}.

(** A run whose second text takes longer than the timeout. *)
Definition run_stalls : generation :=
  {| pushed := [(2, "par"); (75, "tial")]%Q;
     finish_wait := 0.1%Q;
     finish := Return [[11; 12; 13; 21; 22]%Z];
     held_back := "" |}.

Definition streaming : dict := {[ "stream" := PyBool true ]}.

(** A config that also asks for a timeout of 100 seconds. *)
Definition streaming_patient : dict :=
  <[ "timeout" := PyFloat 100 ]> streaming.

(** An engine whose chat template rejects every conversation. *)
Definition TemplateError : exception :=
  {| exc_class := "TemplateError"; exc_is_Exception := true;
     exc_traceback := ["apply_chat_template"] |}.

Definition rejecting_model : Qwen2VLChatModel :=
  {| model_uid := "qwen2-vl-instruct-0"; _device := "cuda";
     engine :=
       {| apply_chat_template := fun _ => Raise TemplateError;
          process_vision_info := process_vision_info (sample_engine run_ok);
          processor := processor (sample_engine run_ok);
          to := to (sample_engine run_ok);
          device := "cuda:0";
          generate := generate (sample_engine run_ok);
          batch_decode := batch_decode (sample_engine run_ok) |} |}.

(** ** Preparation of the engine input *)

(** The steps that turn a conversation into engine input, as both
    [_generate] and [_generate_stream] run them. *)
Definition prepare (eng : ModelEngine) (messages : list message)
    : outcome BatchFeature :=
  match apply_chat_template eng messages with
  | Raise e => Raise e
  | Return text =>
      match process_vision_info eng messages with
      | Raise e => Raise e
      | Return (image_inputs, video_inputs) =>
          processor eng [text] image_inputs video_inputs
      end
  end.

(** The same, followed by the move to a device. *)
Definition prepare_on (eng : ModelEngine) (messages : list message)
    (dev : string) : outcome BatchFeature :=
  match prepare eng messages with
  | Raise e => Raise e
  | Return inputs => to eng inputs dev
  end.

(** The calls to [generate] within a log. *)
Definition generate_calls (log : list engine_call) : list gen_kwargs :=
  omap (fun c => match c with CallGenerate kw => Some kw | _ => None end) log.

(** The engine operations performed between two worlds. *)
Definition new_calls (w w' : world) : list engine_call :=
  drop (length (calls w)) (calls w').

(** Closes a goal about the world a run of engine operations leaves: the
    run, its UUID clock, and its log by the lemma [log_eq] on
    [new_calls]. *)
Ltac close_log log_eq :=
  cbn; eexists; split; [reflexivity|]; split; [reflexivity|];
  cbn; rewrite <- ?app_assoc; rewrite log_eq; reflexivity.

(** The streamer and the keyword arguments [_generate_stream] builds. *)
Definition the_streamer : TextIteratorStreamer :=
  {| timeout := 60; skip_prompt := true; skip_special_tokens := true |}.

Definition stream_kwargs (config : dict) (inputs : BatchFeature)
    : gen_kwargs :=
  {| kw_inputs := inputs;
     max_new_tokens := get config "max_tokens" (PyInt 512);
     temperature := get config "temperature" (PyInt 1);
     streamer := Some the_streamer |}.

Definition sync_kwargs (config : dict) (inputs : BatchFeature)
    : gen_kwargs :=
  {| kw_inputs := inputs;
     max_new_tokens := get config "max_tokens" (PyInt 512);
     temperature := get config "temperature" (PyInt 1);
     streamer := None |}.

(** The [stream] option as [chat] reads it: [False] when the config is
    not supplied or has no such key. *)
Definition stream_option (generate_config : option dict) : pyval :=
  match generate_config with
  | Some d => get d "stream" (PyBool false)
  | None => PyBool false
  end.

(** The config [chat] hands on: [{}] when none is supplied. *)
Definition config_of (generate_config : option dict) : dict :=
  default ∅ generate_config.

(** Two iterators pulled in any order: [order] tells, pull by pull, whether
    the first one is pulled (or else the second); the fragments each one
    yields are collected. *)
Fixpoint pull_both (order : list bool) (self : Qwen2VLChatModel)
    (it1 it2 : generator) (w : world)
    : list CompletionChunk * list CompletionChunk * world :=
  match order with
  | [] => ([], [], w)
  | true :: order =>
      let '(p, it1, w) := next self it1 w in
      let '(chunks1, chunks2, w) := pull_both order self it1 it2 w in
      (match p with Yielded c => c :: chunks1 | _ => chunks1 end, chunks2, w)
  | false :: order =>
      let '(p, it2, w) := next self it2 w in
      let '(chunks1, chunks2, w) := pull_both order self it1 it2 w in
      (chunks1, match p with Yielded c => c :: chunks2 | _ => chunks2 end, w)
  end.

(** The generator is past its start and, while in the loop, carries the
    identifier [cid]. *)
Definition started_as (cid : string) (it : generator) : Prop :=
  match it with
  | Created _ _ => False
  | InLoop completion_id _ _ _ _ => completion_id = cid
  | AtLastYield | Finished => True
  end.

(** The UUID a generator was started with ([None] before its start) fits
    its state, and was drawn before the clock of [w]. *)
Definition drew (it : generator) (o : option N) (w : world) : Prop :=
  (forall n, o = Some n -> (n < uuid_clock w)%N) /\
  match it with
  | Created _ _ => o = None
  | InLoop completion_id _ _ _ _ =>
      exists n, o = Some n /\ completion_id = str n
  | AtLastYield | Finished => True
  end.

(** The usage of a response whose token counts were not computed. *)
Definition unknown_usage : Usage :=
  {| prompt_tokens := unknown; completion_tokens := unknown;
     total_tokens := unknown |}.

(** Whether a response reports computed token counts. *)
Definition reports_counts (u : Usage) : Prop :=
  prompt_tokens u <> unknown /\ completion_tokens u <> unknown
  /\ total_tokens u <> unknown.


(** ** Names of model families *)

From Stdlib Require Import Ascii.

(** [c.lower()] on an ASCII character. *)
Definition ascii_lower (c : ascii) : ascii :=
  let n := nat_of_ascii c in
  if Nat.leb 65 n && Nat.leb n 90 then ascii_of_nat (n + 32) else c.

(** [s.lower()]. Strings are strings of ASCII characters, which the names
    of formats and families are. *)
Fixpoint lower (s : string) : string :=
  match s with
  | EmptyString => EmptyString
  | String c rest => String (ascii_lower c) (lower rest)
  end.

(** [s.startswith(p)] *)
Fixpoint startswith (s p : string) : bool :=
  match p, s with
  | EmptyString, _ => true
  | String a p', String b s' => Ascii.eqb a b && startswith s' p'
  | String _ _, EmptyString => false
  end.

(** [needle in hay]: [needle] starts at some position of [hay]. *)
Fixpoint contains (needle hay : string) : bool :=
  startswith hay needle
  || match hay with
     | EmptyString => false
     | String _ rest => contains needle rest
     end.

(** What [match] and [load] read of a model spec and a model family
    ([LLMSpecV1] and [LLMFamilyV1] of [..llm_family]). *)
Record LLMSpecV1 : Type := {
  model_format : string;
}.

Record LLMFamilyV1 : Type := {
  model_family : option string;
  model_name : string;
}.

(** [model_family.model_family or model_family.model_name]: the name,
    when the family is [None] or empty. *)
Definition llm_family_of (f : LLMFamilyV1) : string :=
  match model_family f with
  | Some s => if String.eqb s "" then model_name f else s
  | None => model_name f
  end.

(** The class method [match] ([match] is a keyword here). *)
Definition match_ (model_family : LLMFamilyV1) (model_spec : LLMSpecV1)
    (quantization : string) : bool :=
  if negb (existsb (String.eqb (model_format model_spec))
                   ["pytorch"; "gptq"; "awq"])
  then false
  else
    let llm_family := llm_family_of model_family in
    if contains (lower "qwen2-vl-instruct") (lower llm_family) then true
    else if contains (lower "qwen2.5-vl-instruct") (lower llm_family)
    then true
    else if contains (lower "qvq-72b-preview") (lower llm_family) then true
    else false.

(** ** The model config *)

Definition AssertionError : exception :=
  {| exc_class := "AssertionError"; exc_is_Exception := true;
     exc_traceback := ["_sanitize_model_config"] |}.

(** [d.setdefault(k, v)], for its effect on [d]: a key that is present
    keeps its value, whatever that is. *)
Definition setdefault (d : dict) (k : string) (v : pyval) : dict :=
  match d !! k with
  | Some _ => d
  | None => <[ k := v ]> d
  end.

(** [_sanitize_model_config]. The method of the base class that it calls
    first is [super_sanitize]; it may return [None]. *)
Definition _sanitize_model_config
    (super_sanitize : option dict -> outcome (option dict))
    (pytorch_model_config : option dict) : outcome dict :=
  match super_sanitize pytorch_model_config with
  | Raise e => Raise e
  | Return None => Raise AssertionError
  | Return (Some pytorch_model_config) =>
      Return (setdefault
                (setdefault pytorch_model_config
                            "min_pixels" (PyInt (256 * 28 * 28)))
                "max_pixels" (PyInt (1280 * 28 * 28)))
  end.

(** ** Loading *)

Inductive model_class : Type :=
| Qwen2VLForConditionalGeneration
| Qwen2_5_VLForConditionalGeneration.

(** The arguments of [AutoProcessor.from_pretrained]. *)
Record processor_args : Type := {
  processor_path : string;
  processor_trust_remote_code : bool;
  min_pixels : pyval;
  max_pixels : pyval;
}.

(** The class and the arguments of [model_cls.from_pretrained]; an
    argument that is not passed is [None]. *)
Record model_args : Type := {
  model_cls : model_class;
  pretrained_path : string;
  torch_dtype : option string;
  device_map : string;
  attn_implementation : option string;
  trust_remote_code : bool;
}.

(** What [load] finds around it: [select_device] of [....model.utils],
    whether [transformers] has [Qwen2_5_VLForConditionalGeneration],
    whether [flash_attn] is installed, whether an NPU is available, and
    whether each [from_pretrained] raises. *)
Record environment : Type := {
  select_device : pyval -> outcome string;
  Qwen2_5_VL_importable : bool;
  flash_attn_installed : bool;
  is_npu_available : bool;
  processor_from_pretrained : processor_args -> option exception;
  model_from_pretrained : model_args -> option exception;
}.

(** The attributes of the object that [__init__] and [load] set, beside
    those of the base class that [load] reads. A loaded processor or
    model is known by the arguments it was loaded with. *)
Record instance : Type := {
  model_path : string;
  self_model_family : LLMFamilyV1;
  _pytorch_model_config : dict;
  self_tokenizer : option processor_args;
  self_model : option model_args;
  self_device : option string;
  self_processor : option processor_args;
}.

(** [__init__], after the base class has set its attributes. *)
Definition __init__ (path : string) (family : LLMFamilyV1) (config : dict)
    : instance :=
  {| model_path := path; self_model_family := family;
     _pytorch_model_config := config;
     self_tokenizer := None; self_model := None;
     self_device := None; self_processor := None |}.

Definition ImportError : exception :=
  {| exc_class := "ImportError"; exc_is_Exception := true;
     exc_traceback := ["load"] |}.

(** The three calls of [from_pretrained] in [load], by what is
    installed. *)
Definition pretrained_args (env : environment) (cls : model_class)
    (path device : string) : model_args :=
  if flash_attn_installed env
  then {| model_cls := cls; pretrained_path := path;
          torch_dtype := Some "bfloat16"; device_map := device;
          attn_implementation := Some "flash_attention_2";
          trust_remote_code := true |}
  else if is_npu_available env
  then (* Ascend do not support bf16 *)
       {| model_cls := cls; pretrained_path := path;
          torch_dtype := Some "float16"; device_map := "auto";
          attn_implementation := None; trust_remote_code := true |}
  else {| model_cls := cls; pretrained_path := path;
          torch_dtype := None; device_map := device;
          attn_implementation := None; trust_remote_code := true |}.

(** [load]: the outcome and the object as [load] leaves it. *)
Definition load (env : environment) (self : instance)
    : outcome unit * instance :=
  let device := get (_pytorch_model_config self) "device" (PyStr "auto") in
  match select_device env device with
  | Raise e => (Raise e, self)
  | Return device =>
      let self :=
        {| model_path := model_path self;
           self_model_family := self_model_family self;
           _pytorch_model_config := _pytorch_model_config self;
           self_tokenizer := self_tokenizer self;
           self_model := self_model self;
           self_device := Some device;
           self_processor := self_processor self |} in
      (* for multiple GPU, set back to auto to make multiple devices work *)
      let device := if String.eqb device "cuda" then "auto" else device in
      let processor :=
        {| processor_path := model_path self;
           processor_trust_remote_code := true;
           min_pixels := get (_pytorch_model_config self) "min_pixels" PyNone;
           max_pixels := get (_pytorch_model_config self) "max_pixels" PyNone
        |} in
      match processor_from_pretrained env processor with
      | Some e => (Raise e, self)
      | None =>
          let self :=
            {| model_path := model_path self;
               self_model_family := self_model_family self;
               _pytorch_model_config := _pytorch_model_config self;
               self_tokenizer := Some processor;
               self_model := self_model self;
               self_device := self_device self;
               self_processor := Some processor |} in
          let llm_family := llm_family_of (self_model_family self) in
          let cls :=
            if contains "qwen2.5" llm_family
            then if Qwen2_5_VL_importable env
                 then Some Qwen2_5_VLForConditionalGeneration
                 else None
            else Some Qwen2VLForConditionalGeneration in
          match cls with
          | None => (Raise ImportError, self)
          | Some cls =>
              let args := pretrained_args env cls (model_path self) device in
              match model_from_pretrained env args with
              | Some e => (Raise e, self)
              | None =>
                  (Return tt,
                   {| model_path := model_path self;
                      self_model_family := self_model_family self;
                      _pytorch_model_config := _pytorch_model_config self;
                      self_tokenizer := self_tokenizer self;
                      self_model := Some args;
                      self_device := self_device self;
                      self_processor := self_processor self |})
              end
          end
      end
  end.

(** An environment in which everything loads, by what [select_device]
    selects and what is installed. *)
Definition sample_environment (selected : string) (importable flash npu : bool)
    : environment :=
  {| select_device := fun _ => Return selected;
     Qwen2_5_VL_importable := importable;
     flash_attn_installed := flash;
     is_npu_available := npu;
     processor_from_pretrained := fun _ => None;
     model_from_pretrained := fun _ => None |}.

(** A 2.5 family spelled with capitals, and one spelled without. *)
Definition Qwen25_capitals : LLMFamilyV1 :=
  {| model_family := None; model_name := "Qwen2.5-VL-Instruct" |}.

Definition qwen25_lowercase : LLMFamilyV1 :=
  {| model_family := Some "qwen2.5-vl-instruct";
     model_name := "my-finetune" |}.

Definition pytorch_spec : LLMSpecV1 := {| model_format := "pytorch" |}.

(** A run that returns an empty batch of generated ids, and a config with
    options beside the two that [generate] is given. *)
Definition run_empty : generation :=
  {| pushed := []; finish_wait := 0.1%Q; finish := Return [];
     held_back := "" |}.

Definition sampling_config : dict :=
  {[ "top_p" := PyFloat 0.9; "max_tokens" := PyInt 64 ]}.

Definition plain_config : dict := {[ "max_tokens" := PyInt 64 ]}.

(** A config that gives [None] for [max_tokens] and nothing for
    [temperature]. *)
Definition only_max_tokens : dict := {[ "max_tokens" := PyNone ]}.

(** The generator has left its first state. *)
Definition started (it : generator) : Prop :=
  match it with
  | Created _ _ => False
  | _ => True
  end.
(** * Properties *)

(** Re-raising with the traceback of [sys.exc_info()] gives the exception
    back as it was. *)
Lemma with_traceback_exc_info (e : exception) :
  with_traceback e (exc_traceback e) = e.
Proof. now destruct e. Qed.

(** ** The loop of the streaming bridge *)

Section Loop.

Variable self : Qwen2VLChatModel.
Variable completion_id : string.
Variable s : TextIteratorStreamer.

(** From the head of the loop, a consumer that pulls often enough sees
    the delivered texts in the order of the pushes, then what the end of
    the run of the producer gives it. *)
Lemma consume_in_loop (pushes : list (Q * string)) (fw : Q)
    (fin : outcome (list (list Z))) (held : string) (w : world)
    (fuel : nat) :
  let run := {| pushed := pushes; finish_wait := fw; finish := fin;
                held_back := held |} in
  length pushes + 2 <= fuel ->
  consume fuel self (InLoop completion_id s run [] None) w =
  (fragments self completion_id s run, Some (ending s run), w).
Proof.
  intros run. subst run. revert fuel.
  induction pushes as [|[wait new_text] rest IH]; intros fuel Hfuel.
  - destruct fuel as [|[|fuel]]; [simpl in Hfuel; lia..|].
    unfold fragments, flushed, ending, timely.
    cbn [pushed finish_wait finish held_back forallb andb delivered].
    cbn [consume next]. unfold stream_loop at 1, streamer_next at 1.
    unfold model_generate, streamer_end.
    cbn [pushed finish finish_wait held_back].
    destruct fin as [ids|e].
    + destruct (in_time s fw); reflexivity.
    + destruct (exc_is_Exception e) eqn:He;
        [|destruct (in_time s fw); reflexivity].
      destruct (in_time s fw); [|reflexivity].
      cbn. now rewrite with_traceback_exc_info.
  - destruct fuel as [|fuel]; [simpl in Hfuel; lia|].
    cbn [consume next]. unfold stream_loop at 1, streamer_next at 1.
    cbn [pushed finish finish_wait held_back].
    unfold fragments, flushed, ending, timely.
    cbn [pushed finish_wait finish held_back forallb andb delivered fst].
    destruct (in_time s wait) eqn:Hw.
    + rewrite IH by (simpl in Hfuel; lia).
      unfold fragments, flushed, ending, timely.
      cbn [pushed finish_wait finish held_back andb].
      reflexivity.
    + reflexivity.
Qed.

End Loop.

(** ** The start of a stream *)

Lemma new_calls_app w l u :
  new_calls w {| calls := calls w ++ l; uuid_clock := u |} = l.
Proof. unfold new_calls. cbn. now rewrite drop_app_length. Qed.

Lemma new_calls_same w : new_calls w w = [].
Proof. unfold new_calls. apply drop_all. Qed.

(** The body of [_generate_stream] reaches the loop exactly when the
    preparation succeeds; it has then started the thread on the keyword
    arguments and drawn one UUID. *)
Lemma stream_start_Return self messages config w inputs :
  prepare_on (engine self) messages (device (engine self)) = Return inputs ->
  exists w1,
    stream_start self messages config w =
      (Return (str (uuid_clock w), the_streamer,
               generate (engine self) (stream_kwargs config inputs)), w1)
    /\ uuid_clock w1 = N.succ (uuid_clock w)
    /\ generate_calls (new_calls w w1) = [stream_kwargs config inputs].
Proof.
  unfold prepare_on, prepare, stream_start, bind, engine_op, uuid1, ret.
  intros H. cbn.
  destruct (apply_chat_template _ _) as [text|]; [|discriminate].
  destruct (process_vision_info _ _) as [[images videos]|]; [|discriminate].
  destruct (processor _ _ _ _) as [inputs0|]; [|discriminate].
  cbn. rewrite H. close_log (new_calls_app w).
Qed.

Lemma stream_start_Raise self messages config w e :
  prepare_on (engine self) messages (device (engine self)) = Raise e ->
  exists w1,
    stream_start self messages config w = (Raise e, w1)
    /\ uuid_clock w1 = uuid_clock w
    /\ generate_calls (new_calls w w1) = [].
Proof.
  unfold prepare_on, prepare, stream_start, bind, engine_op, uuid1, ret.
  intros H. cbn.
  destruct (apply_chat_template _ _) as [text|];
    [|inversion H; subst; close_log (new_calls_app w)].
  destruct (process_vision_info _ _) as [[images videos]|];
    [|inversion H; subst; close_log (new_calls_app w)].
  destruct (processor _ _ _ _) as [inputs0|];
    [|inversion H; subst; close_log (new_calls_app w)].
  cbn. rewrite H. close_log (new_calls_app w).
Qed.

(** ** The entry point *)

Lemma dict_truthy_false (d : dict) : dict_truthy d = false -> d = ∅.
Proof.
  unfold dict_truthy. intros H. apply map_size_empty_iff.
  destruct (size d); [reflexivity|discriminate].
Qed.

(** [chat] validates, then branches on the truth value of the [stream]
    option. *)
Lemma chat_eq self messages generate_config w :
  chat self messages generate_config w =
  match _transform_messages messages w with
  | (Raise e, w') => (Raise e, w')
  | (Return messages, w') =>
      if truthy (stream_option generate_config)
      then (Return (Chunks (Created messages (config_of generate_config))), w')
      else
        match _generate self messages (config_of generate_config) w' with
        | (Return c, w'') => (Return (Completion c), w'')
        | (Raise e, w'') => (Raise e, w'')
        end
  end.
Proof.
  unfold chat, cache_clean, bind.
  destruct (_transform_messages messages w) as [[ms|e] w']; [|reflexivity].
  assert (Hcfg : match generate_config with
                 | Some d => if dict_truthy d then d else ∅
                 | None => ∅
                 end = config_of generate_config).
  { destruct generate_config as [d|]; [|reflexivity]. cbn.
    destruct (dict_truthy d) eqn:Hd; [reflexivity|].
    now rewrite (dict_truthy_false d Hd). }
  rewrite Hcfg.
  assert (Hstream :
            (if dict_truthy (config_of generate_config)
             then get (config_of generate_config) "stream" (PyBool false)
             else PyBool false) = stream_option generate_config).
  { destruct generate_config as [d|]; [|reflexivity]. cbn.
    destruct (dict_truthy d) eqn:Hd; [reflexivity|].
    now rewrite (dict_truthy_false d Hd). }
  rewrite Hstream.
  destruct (truthy (stream_option generate_config)); [reflexivity|].
  destruct (_generate self messages (config_of generate_config) w')
    as [[c|e] w'']; reflexivity.
Qed.

(** ** Streams from their creation *)

(** The consumer of a stream whose preparation succeeded. *)
Lemma consume_started self messages config w completion_id s run w1 fuel :
  stream_start self messages config w = (Return (completion_id, s, run), w1) ->
  length (pushed run) + 2 <= fuel ->
  consume fuel self (Created messages config) w =
  (fragments self completion_id s run, Some (ending s run), w1).
Proof.
  intros Hs Hfuel. destruct run as [pushes fw fin held]. cbn [pushed] in *.
  rewrite <- (consume_in_loop self completion_id s pushes fw fin held w1 fuel
                Hfuel).
  destruct fuel as [|fuel]; [cbn in Hfuel; lia|].
  cbn [consume next]. now rewrite Hs.
Qed.

(** The consumer of a stream whose preparation fails sees the failure at
    the first pull. *)
Lemma consume_not_started self messages config w e w1 fuel :
  stream_start self messages config w = (Raise e, w1) ->
  consume (S fuel) self (Created messages config) w =
  ([], Some (Failed e), w1).
Proof. intros Hs. cbn [consume next]. now rewrite Hs. Qed.

(** When every push comes in time, every push is delivered. *)
Lemma delivered_all s pushes :
  forallb (fun p => in_time s (fst p)) pushes = true ->
  delivered s pushes = map snd pushes.
Proof.
  induction pushes as [|[wait t] rest IH]; [reflexivity|].
  cbn. destruct (in_time s wait); [|discriminate].
  intros H. now rewrite IH.
Qed.

Lemma text_chunks_delta self completion_id texts :
  map delta_text (map (text_chunk self completion_id) texts) = map Some texts.
Proof. induction texts; cbn; [reflexivity|]. now f_equal. Qed.

Lemma text_chunks_no_finish_reason self completion_id texts :
  Forall (fun c => finish_reason c = None)
         (map (text_chunk self completion_id) texts).
Proof. induction texts; cbn; constructor; auto. Qed.

(** ** Streams that complete, and streams whose producer fails *)

(** C1. With [stream] set, a valid conversation, a preparation that
    succeeds and a producer that returns without keeping the consumer
    waiting for the timeout, [chat] returns an iterator whose sequence of
    fragments is finite: one fragment per pushed text, in the order of the
    pushes and each with [finish_reason] null, then exactly one fragment
    with text null and [finish_reason] "stop", then the end of the
    iteration. *)
Theorem stream_ends_with_one_stop_fragment
    (self : Qwen2VLChatModel) (messages : list message)
    (generate_config : option dict) (w : world) (inputs : BatchFeature)
    (ids : list (list Z)) :
  let run := generate (engine self)
               (stream_kwargs (config_of generate_config) inputs) in
  truthy (stream_option generate_config) = true ->
  _transform_messages messages w = (Return messages, w) ->
  prepare_on (engine self) messages (device (engine self)) = Return inputs ->
  timely the_streamer run = true ->
  finish run = Return ids ->
  let it := _to_chat_completion_chunks
              (_generate_stream self messages (config_of generate_config)) in
  chat self messages generate_config w = (Return (Chunks it), w) /\
  exists w1,
    forall fuel, length (pushed run) + 2 <= fuel ->
      exists chunks last,
        consume fuel self it w = (chunks ++ [last], Some Stopped, w1) /\
        map delta_text chunks = map (fun p => Some (snd p)) (pushed run) /\
        Forall (fun c => finish_reason c = None) chunks /\
        delta_text last = None /\
        finish_reason last = Some "stop".
Proof.
  intros run Hstream Hvalid Hprep Htimely Hfin it.
  destruct (stream_start_Return self messages (config_of generate_config)
              w inputs Hprep) as (w1 & Hstart & _ & _).
  split; [|exists w1].
  - now rewrite chat_eq, Hvalid, Hstream.
  - intros fuel Hfuel. fold run in Hstart.
    unfold it, _to_chat_completion_chunks, _generate_stream.
    rewrite (consume_started _ _ _ _ _ _ _ _ _ Hstart Hfuel).
    unfold fragments, flushed, ending. rewrite Htimely, Hfin.
    cbn [last_chunks]. rewrite app_nil_r.
    apply andb_true_iff in Htimely as [Hall _].
    rewrite (delivered_all _ _ Hall).
    eexists _, _. split; [reflexivity|].
    rewrite text_chunks_delta, map_map.
    split; [reflexivity|]. split; [apply text_chunks_no_finish_reason|].
    split; reflexivity.
Qed.

Lemma stream_ends_with_one_stop_fragment_witness :
  let it := _to_chat_completion_chunks
              (_generate_stream (sample_model run_ok) hello streaming) in
  chat (sample_model run_ok) hello (Some streaming) w0
    = (Return (Chunks it), w0) /\
  exists w1,
    forall fuel, length (pushed run_ok) + 2 <= fuel ->
      exists chunks last,
        consume fuel (sample_model run_ok) it w0
          = (chunks ++ [last], Some Stopped, w1) /\
        map delta_text chunks = map (fun p => Some (snd p)) (pushed run_ok) /\
        Forall (fun c => finish_reason c = None) chunks /\
        delta_text last = None /\
        finish_reason last = Some "stop".
Proof.
  apply (stream_ends_with_one_stop_fragment (sample_model run_ok) hello
           (Some streaming) w0
           {| input_ids := [[11; 12; 13]%Z]; on_device := "cuda:0" |}
           [[11; 12; 13; 21; 22; 23]%Z]); reflexivity.
Defined.

(** C2, as the claim states it, fails: the consumer of a producer that
    raises after "par" and "tial" gets a third fragment before the error.
    The handler of [model_generate] calls [streamer.end()], which queues
    the text the streamer holds back, here the empty string, ahead of the
    stop signal. *)
Lemma producer_error_counterexample :
  exists chunks w1,
    consume 5 (sample_model run_fails)
      (_generate_stream (sample_model run_fails) hello streaming) w0
      = (chunks, Some (Failed RuntimeError), w1) /\
    map delta_text chunks = [Some "par"; Some "tial"; Some ""] /\
    map delta_text chunks
      <> map (fun p => Some (snd p)) (pushed run_fails).
Proof.
  eexists _, _. split; [vm_compute; reflexivity|].
  split; [reflexivity|discriminate].
Qed.

(** C2, amended. With [stream] set, a valid conversation, a preparation
    that succeeds and a producer that raises an [Exception] [e] (without
    having kept the consumer waiting for the timeout), the consumer first
    gets one fragment per text pushed before the failure, in order, then
    one fragment with the text the streamer held back, the empty string
    when it held none, each with [finish_reason] null; and then [e] itself
    is raised, class and traceback as the producer's handler captured
    them. The stream has no fragment with [finish_reason] "stop". *)
Theorem producer_error_is_reraised
    (self : Qwen2VLChatModel) (messages : list message)
    (generate_config : option dict) (w : world) (inputs : BatchFeature)
    (e : exception) :
  let run := generate (engine self)
               (stream_kwargs (config_of generate_config) inputs) in
  truthy (stream_option generate_config) = true ->
  _transform_messages messages w = (Return messages, w) ->
  prepare_on (engine self) messages (device (engine self)) = Return inputs ->
  timely the_streamer run = true ->
  finish run = Raise e ->
  exc_is_Exception e = true ->
  let it := _to_chat_completion_chunks
              (_generate_stream self messages (config_of generate_config)) in
  chat self messages generate_config w = (Return (Chunks it), w) /\
  exists w1,
    forall fuel, length (pushed run) + 2 <= fuel ->
      exists chunks,
        consume fuel self it w = (chunks, Some (Failed e), w1) /\
        map delta_text chunks
          = map (fun p => Some (snd p)) (pushed run)
            ++ [Some (held_back run)] /\
        Forall (fun c => finish_reason c = None) chunks.
Proof.
  intros run Hstream Hvalid Hprep Htimely Hfin Hexc it.
  destruct (stream_start_Return self messages (config_of generate_config)
              w inputs Hprep) as (w1 & Hstart & _ & _).
  split; [|exists w1].
  - now rewrite chat_eq, Hvalid, Hstream.
  - intros fuel Hfuel. fold run in Hstart.
    unfold it, _to_chat_completion_chunks, _generate_stream.
    rewrite (consume_started _ _ _ _ _ _ _ _ _ Hstart Hfuel).
    unfold fragments, flushed, ending. rewrite Htimely, Hfin, Hexc.
    cbn [last_chunks]. rewrite app_nil_r.
    apply andb_true_iff in Htimely as [Hall _].
    rewrite (delivered_all _ _ Hall).
    eexists. split; [reflexivity|].
    rewrite text_chunks_delta, map_app, map_map. split; [reflexivity|].
    apply text_chunks_no_finish_reason.
Qed.

Lemma producer_error_is_reraised_witness :
  let it := _to_chat_completion_chunks
              (_generate_stream (sample_model run_fails) hello streaming) in
  chat (sample_model run_fails) hello (Some streaming) w0
    = (Return (Chunks it), w0) /\
  exists w1,
    forall fuel, length (pushed run_fails) + 2 <= fuel ->
      exists chunks,
        consume fuel (sample_model run_fails) it w0
          = (chunks, Some (Failed RuntimeError), w1) /\
        map delta_text chunks
          = map (fun p => Some (snd p)) (pushed run_fails)
            ++ [Some (held_back run_fails)] /\
        Forall (fun c => finish_reason c = None) chunks.
Proof.
  apply (producer_error_is_reraised (sample_model run_fails) hello
           (Some streaming) w0
           {| input_ids := [[11; 12; 13]%Z]; on_device := "cuda:0" |}
           RuntimeError); reflexivity.
Defined.

(** The consumer of three pushes sees them in order, then the fragment
    without text; the consumer of a failing producer sees its two pushes,
    the text of the handler's [streamer.end()], and then the producer's
    error. *)
Example consumer_sees_the_write_order :
  map delta_text
    (consume 5 (sample_model run_ok)
       (_generate_stream (sample_model run_ok) hello streaming) w0).1.1
  = [Some "Hel"; Some "lo"; Some " world"; None].
Proof. reflexivity. Qed.

Example consumer_sees_the_error :
  (consume 5 (sample_model run_fails)
     (_generate_stream (sample_model run_fails) hello streaming) w0).1
  = ([text_chunk (sample_model run_fails) "7" "par";
      text_chunk (sample_model run_fails) "7" "tial";
      text_chunk (sample_model run_fails) "7" ""],
     Some (Failed RuntimeError)).
Proof. reflexivity. Qed.

(** ** Timeouts and failures of the preparation *)

(** C7, as the claim states it, fails: a config that asks for a timeout of
    100 seconds changes nothing. When the producer takes 75 seconds over
    its second text, the consumer gets the first fragment and then
    [queue.Empty], the exception of the streamer's queue, and no
    [GenerationTimeoutError]. *)
Lemma timeout_is_fixed_counterexample :
  exists chunks e w1,
    consume 10 (sample_model run_stalls) (Created hello streaming_patient) w0
      = (chunks, Some (Failed e), w1) /\
    map delta_text chunks = [Some "par"] /\
    exc_class e = "queue.Empty" /\
    exc_class e <> "GenerationTimeoutError" /\
    map (fun kw => timeout <$> streamer kw) (generate_calls (calls w1))
      = [Some 60%Q].
Proof.
  eexists _, _, _. split; [vm_compute; reflexivity|].
  repeat split; try reflexivity. discriminate.
Qed.

(** C7, amended. The streamer of every stream has a timeout of 60
    seconds, whatever the config says. When a push or the end of the run
    keeps the consumer waiting that long, the consumer gets the fragments
    delivered until then and then [queue.Empty], raised by the streamer and
    passed on as it is; the stream has no fragment with [finish_reason]
    "stop". *)
Theorem stalled_stream_raises_queue_Empty
    (self : Qwen2VLChatModel) (messages : list message) (config : dict)
    (w : world) (inputs : BatchFeature) :
  let kwargs := stream_kwargs config inputs in
  let run := generate (engine self) kwargs in
  prepare_on (engine self) messages (device (engine self)) = Return inputs ->
  timely the_streamer run = false ->
  exists w1,
    generate_calls (new_calls w w1) = [kwargs] /\
    (timeout <$> streamer kwargs) = Some 60%Q /\
    forall fuel, length (pushed run) + 2 <= fuel ->
      exists chunks,
        consume fuel self (_generate_stream self messages config) w
          = (chunks, Some (Failed queue_Empty), w1) /\
        map delta_text chunks
          = map Some (delivered the_streamer (pushed run)) /\
        Forall (fun c => finish_reason c = None) chunks.
Proof.
  intros kwargs run Hprep Hlate.
  destruct (stream_start_Return self messages config w inputs Hprep)
    as (w1 & Hstart & _ & Hlog).
  exists w1. split; [assumption|]. split; [reflexivity|].
  intros fuel Hfuel. fold kwargs run in Hstart. unfold _generate_stream.
  rewrite (consume_started _ _ _ _ _ _ _ _ _ Hstart Hfuel).
  unfold fragments, flushed, ending. rewrite Hlate. cbn [last_chunks].
  rewrite !app_nil_r.
  eexists. split; [reflexivity|].
  split; [apply text_chunks_delta|apply text_chunks_no_finish_reason].
Qed.

Lemma stalled_stream_raises_queue_Empty_witness :
  let kwargs :=
    stream_kwargs streaming_patient
      {| input_ids := [[11; 12; 13]%Z]; on_device := "cuda:0" |} in
  exists w1,
    generate_calls (new_calls w0 w1) = [kwargs] /\
    (timeout <$> streamer kwargs) = Some 60%Q /\
    forall fuel, length (pushed run_stalls) + 2 <= fuel ->
      exists chunks,
        consume fuel (sample_model run_stalls)
                (_generate_stream (sample_model run_stalls) hello
                   streaming_patient) w0
          = (chunks, Some (Failed queue_Empty), w1) /\
        map delta_text chunks
          = map Some (delivered the_streamer (pushed run_stalls)) /\
        Forall (fun c => finish_reason c = None) chunks.
Proof.
  exact (stalled_stream_raises_queue_Empty (sample_model run_stalls) hello
           streaming_patient w0
           {| input_ids := [[11; 12; 13]%Z]; on_device := "cuda:0" |}
           eq_refl eq_refl).
Defined.

(** An exception of the producer that [except Exception] does not catch
    leaves the stream without a stop signal: the consumer gets what was
    pushed and then [queue.Empty]. *)
Lemma uncaught_exception_times_out self messages config w inputs e :
  let run := generate (engine self) (stream_kwargs config inputs) in
  prepare_on (engine self) messages (device (engine self)) = Return inputs ->
  finish run = Raise e ->
  exc_is_Exception e = false ->
  forall fuel, length (pushed run) + 2 <= fuel ->
    (consume fuel self (_generate_stream self messages config) w).1
    = (map (text_chunk self (str (uuid_clock w)))
           (delivered the_streamer (pushed run)),
       Some (Failed queue_Empty)).
Proof.
  intros run Hprep Hfin Hexc fuel Hfuel.
  destruct (stream_start_Return self messages config w inputs Hprep)
    as (w1 & Hstart & _ & _).
  fold run in Hstart. unfold _generate_stream.
  rewrite (consume_started _ _ _ _ _ _ _ _ _ Hstart Hfuel).
  unfold fragments, flushed, ending. rewrite Hfin, Hexc.
  destruct (timely the_streamer run); cbn [last_chunks fst];
    now rewrite !app_nil_r.
Qed.

(** C8, as the claim states it, fails with [stream] set: when the chat
    template rejects the conversation, [chat] returns the iterator and
    raises nothing, and no engine operation has run; the error comes with
    the first pull. *)
Lemma template_error_is_deferred_counterexample :
  chat rejecting_model hello (Some streaming) w0
    = (Return (Chunks (Created hello streaming)), w0) /\
  exists w1,
    next rejecting_model (Created hello streaming) w0
      = (Raised TemplateError, Finished, w1).
Proof. split; [reflexivity|]. eexists. reflexivity. Qed.

(** C8, amended. When a valid conversation cannot be turned into engine
    input, the preparation raising [e]: without [stream], [chat] raises
    [e] at the call; with [stream], [chat] returns the iterator without
    having run any engine operation, and the first pull raises [e] and
    ends the stream without a fragment. *)
Theorem preparation_error_surfacing
    (self : Qwen2VLChatModel) (messages : list message)
    (generate_config : option dict) (w : world) (e : exception) :
  _transform_messages messages w = (Return messages, w) ->
  prepare (engine self) messages = Raise e ->
  if truthy (stream_option generate_config)
  then
    exists it w1,
      chat self messages generate_config w = (Return (Chunks it), w) /\
      next self it w = (Raised e, Finished, w1)
  else
    exists w1, chat self messages generate_config w = (Raise e, w1).
Proof.
  intros Hvalid Hprep. rewrite chat_eq, Hvalid.
  destruct (truthy (stream_option generate_config)).
  - assert (Hon : prepare_on (engine self) messages (device (engine self))
                  = Raise e) by (unfold prepare_on; now rewrite Hprep).
    destruct (stream_start_Raise self messages (config_of generate_config)
                w e Hon) as (w1 & Hstart & _).
    eexists _, w1. split; [reflexivity|]. cbn [next]. now rewrite Hstart.
  - revert Hprep. unfold prepare, _generate, bind, engine_op. cbn.
    destruct (apply_chat_template _ _) as [text|e0];
      [|intros H; inversion H; subst; eexists; reflexivity].
    destruct (process_vision_info _ _) as [[images videos]|e0];
      [|intros H; inversion H; subst; eexists; reflexivity].
    cbn. intros H. rewrite H. eexists; reflexivity.
Qed.

Lemma preparation_error_surfacing_witness :
  (exists it w1,
     chat rejecting_model hello (Some streaming) w0
       = (Return (Chunks it), w0) /\
     next rejecting_model it w0 = (Raised TemplateError, Finished, w1)) /\
  (exists w1, chat rejecting_model hello None w0 = (Raise TemplateError, w1)).
Proof.
  split.
  - exact (preparation_error_surfacing rejecting_model hello (Some streaming)
             w0 TemplateError eq_refl eq_refl).
  - exact (preparation_error_surfacing rejecting_model hello None
             w0 TemplateError eq_refl eq_refl).
Defined.

(** ** Stream identifiers *)

Lemma str_inj (n m : N) : str n = str m -> n = m.
Proof. unfold str. apply (inj pretty). Qed.

Lemma stream_loop_id self cid s thread queue error p it' :
  stream_loop self cid s thread queue error = (p, it') ->
  (forall c, p = Yielded c -> id c = cid) /\ started_as cid it'.
Proof.
  unfold stream_loop.
  destruct (streamer_next s thread queue error)
    as [[[[new_text| |] thread'] queue'] error'].
  - intros H; inversion H; subst. split; [|reflexivity].
    intros c Hc; inversion Hc; reflexivity.
  - destruct error' as [[[? err] tb]|]; intros H; inversion H; subst.
    + split; [discriminate|exact I].
    + split; [|exact I]. intros c Hc; inversion Hc; reflexivity.
  - intros H; inversion H; subst. split; [discriminate|exact I].
Qed.

(** A pull on a generator that has not started either fails in the
    preparation, or draws the UUID of the clock and uses it. *)
Lemma next_Created self messages config w p it' w' :
  next self (Created messages config) w = (p, it', w') ->
  (uuid_clock w' = uuid_clock w /\ it' = Finished /\
   forall c, p <> Yielded c)
  \/ (uuid_clock w' = N.succ (uuid_clock w) /\
      (forall c, p = Yielded c -> id c = str (uuid_clock w)) /\
      started_as (str (uuid_clock w)) it').
Proof.
  cbn [next].
  destruct (prepare_on (engine self) messages (device (engine self)))
    as [inputs|e] eqn:Hp.
  - destruct (stream_start_Return self messages config w inputs Hp)
      as (w1 & Hs & Hu & _).
    rewrite Hs. intros H. right.
    destruct (stream_loop _ _ _ _ _ _) as [p0 it0] eqn:Hl.
    inversion H; subst. split; [assumption|].
    exact (stream_loop_id _ _ _ _ _ _ _ _ Hl).
  - destruct (stream_start_Raise self messages config w e Hp)
      as (w1 & Hs & Hu & _).
    rewrite Hs. intros H; inversion H; subst. left.
    split; [assumption|]. split; [reflexivity|discriminate].
Qed.

Lemma next_InLoop self cid s thread queue error w p it' w' :
  next self (InLoop cid s thread queue error) w = (p, it', w') ->
  w' = w /\ (forall c, p = Yielded c -> id c = cid) /\ started_as cid it'.
Proof.
  cbn [next]. destruct (stream_loop _ _ _ _ _ _) as [p0 it0] eqn:Hl.
  intros H; inversion H; subst. split; [reflexivity|].
  exact (stream_loop_id _ _ _ _ _ _ _ _ Hl).
Qed.

Lemma drew_started cid n it w :
  started_as cid it -> cid = str n -> (n < uuid_clock w)%N ->
  drew it (Some n) w.
Proof.
  intros Hs Hc Hn. split.
  - intros m Hm; inversion Hm; subst; assumption.
  - destruct it; cbn in *; try exact I; [contradiction|].
    exists n. split; [reflexivity|congruence].
Qed.

Lemma drew_later it o w w' :
  drew it o w -> (uuid_clock w <= uuid_clock w')%N -> drew it o w'.
Proof.
  intros [Hlt Hit] Hle. split; [|assumption].
  intros n Hn. specialize (Hlt n Hn). lia.
Qed.

(** One pull keeps the bookkeeping of UUIDs: the generator pulled keeps
    the UUID it drew or draws the one of the clock, the clock does not go
    back, and a fragment yielded carries that UUID. *)
Lemma next_drew self it o w p it' w' :
  next self it w = (p, it', w') ->
  drew it o w ->
  exists o',
    drew it' o' w' /\
    (uuid_clock w <= uuid_clock w')%N /\
    (forall n, o = Some n -> o' = Some n) /\
    (forall n, o' = Some n -> o = Some n \/ n = uuid_clock w) /\
    (forall c, p = Yielded c -> exists n, o' = Some n /\ id c = str n).
Proof.
  intros Hnext [Hlt Hit].
  destruct it as [messages config|cid s thread queue error| |].
  - subst o. apply next_Created in Hnext as [(Hu & Hfin & Hp)|(Hu & Hp & Hs)].
    + subst it'. exists None. split; [split; [discriminate|exact I]|].
      split; [lia|]. split; [discriminate|]. split; [discriminate|].
      intros c Hc. now apply Hp in Hc.
    + exists (Some (uuid_clock w)).
      split; [apply (drew_started (str (uuid_clock w))); auto; lia|].
      split; [lia|]. split; [discriminate|].
      split; [intros n Hn; inversion Hn; auto|].
      intros c Hc. exists (uuid_clock w). auto.
  - destruct Hit as (n & Ho & Hcid). subst o cid.
    apply next_InLoop in Hnext as (Hw & Hp & Hs). subst w'.
    exists (Some n).
    split; [apply (drew_started (str n)); auto|].
    split; [lia|]. split; [auto|]. split; [auto|].
    intros c Hc. exists n. auto.
  - cbn in Hnext; inversion Hnext; subst. exists o.
    split; [split; [assumption|exact I]|].
    split; [lia|]. split; [auto|]. split; [auto|]. discriminate.
  - cbn in Hnext; inversion Hnext; subst. exists o.
    split; [split; [assumption|exact I]|].
    split; [lia|]. split; [auto|]. split; [auto|]. discriminate.
Qed.

(** Two generators pulled in any order: each one's fragments carry one
    UUID, its own, and the two UUIDs differ. *)
Lemma pull_both_ids order : forall self it1 it2 w o1 o2,
  drew it1 o1 w -> drew it2 o2 w ->
  (forall a b, o1 = Some a -> o2 = Some b -> a <> b) ->
  exists f1 f2 : N,
    f1 <> f2 /\
    (forall a, o1 = Some a -> f1 = a) /\
    (forall b, o2 = Some b -> f2 = b) /\
    (o1 = None -> (uuid_clock w <= f1)%N) /\
    (o2 = None -> (uuid_clock w <= f2)%N) /\
    Forall (fun c => id c = str f1) (pull_both order self it1 it2 w).1.1 /\
    Forall (fun c => id c = str f2) (pull_both order self it1 it2 w).1.2.
Proof.
  induction order as [|first order IH]; intros self it1 it2 w o1 o2 H1 H2 Hne.
  - cbn. destruct o1 as [a|], o2 as [b|].
    + exists a, b. repeat split; try congruence; auto; constructor.
    + exists a, (N.succ (N.max a (uuid_clock w))).
      repeat split; try congruence; try discriminate; try lia; constructor.
    + exists (N.succ (N.max b (uuid_clock w))), b.
      repeat split; try congruence; try discriminate; try lia; constructor.
    + exists (uuid_clock w), (N.succ (uuid_clock w)).
      repeat split; try congruence; try discriminate; try lia; constructor.
  - destruct first; cbn [pull_both].
    + destruct (next self it1 w) as [[p it1'] w'] eqn:Hnext.
      destruct (next_drew _ _ _ _ _ _ _ Hnext H1)
        as (o1' & H1' & Hle & Hkeep & Hnew & Hp).
      assert (Hne' : forall a b, o1' = Some a -> o2 = Some b -> a <> b).
      { intros a b Ha Hb. destruct (Hnew a Ha) as [Ho|Ho]; [eauto|subst a].
        destruct H2 as [Hlt _]. specialize (Hlt b Hb). lia. }
      destruct (IH self it1' it2 w' o1' o2 H1' (drew_later _ _ _ _ H2 Hle) Hne')
        as (f1 & f2 & Hf & Hf1 & Hf2 & Hn1 & Hn2 & Hall1 & Hall2).
      destruct (pull_both order self it1' it2 w') as [[chunks1 chunks2] w''].
      cbn [fst snd] in *. exists f1, f2.
      split; [assumption|]. split; [auto|]. split; [assumption|].
      split.
      { intros Ho. subst o1.
        destruct o1' as [n|]; [|specialize (Hn1 eq_refl); lia].
        rewrite (Hf1 n eq_refl).
        destruct (Hnew n eq_refl) as [?|Hn]; [discriminate|lia]. }
      split; [intros Ho; specialize (Hn2 Ho); lia|].
      split; [|assumption].
      destruct p as [c| |]; try assumption. constructor; [|assumption].
      destruct (Hp c eq_refl) as (n & Hn & Hid). now rewrite Hid, (Hf1 n Hn).
    + destruct (next self it2 w) as [[p it2'] w'] eqn:Hnext.
      destruct (next_drew _ _ _ _ _ _ _ Hnext H2)
        as (o2' & H2' & Hle & Hkeep & Hnew & Hp).
      assert (Hne' : forall a b, o1 = Some a -> o2' = Some b -> a <> b).
      { intros a b Ha Hb. destruct (Hnew b Hb) as [Ho|Ho]; [eauto|subst b].
        destruct H1 as [Hlt _]. specialize (Hlt a Ha). lia. }
      destruct (IH self it1 it2' w' o1 o2' (drew_later _ _ _ _ H1 Hle) H2' Hne')
        as (f1 & f2 & Hf & Hf1 & Hf2 & Hn1 & Hn2 & Hall1 & Hall2).
      destruct (pull_both order self it1 it2' w') as [[chunks1 chunks2] w''].
      cbn [fst snd] in *. exists f1, f2.
      split; [assumption|]. split; [assumption|]. split; [auto|].
      split; [intros Ho; specialize (Hn1 Ho); lia|].
      split.
      { intros Ho. subst o2.
        destruct o2' as [n|]; [|specialize (Hn2 eq_refl); lia].
        rewrite (Hf2 n eq_refl).
        destruct (Hnew n eq_refl) as [?|Hn]; [discriminate|lia]. }
      split; [assumption|].
      destruct p as [c| |]; try assumption. constructor; [|assumption].
      destruct (Hp c eq_refl) as (n & Hn & Hid). now rewrite Hid, (Hf2 n Hn).
Qed.

(** Every fragment of the stream with the identifier [cid] carries
    [cid]. *)
Lemma fragments_id self cid s run :
  Forall (fun c => id c = cid) (fragments self cid s run).
Proof.
  unfold fragments. apply Forall_app. split.
  - apply Forall_forall. intros c Hc. apply list_elem_of_In in Hc.
    apply in_map_iff in Hc as (t & Ht & _). now subst c.
  - destruct (ending s run); cbn; repeat constructor.
Qed.

(** C9. A stream whose preparation succeeds draws exactly one UUID, at
    its first pull, and its fragments, which are those the run of the
    producer determines, all carry it as their identifier; so does the
    last fragment with [finish_reason] "stop" of a stream that completes.
    A second stream of the same conversation and config, consumed after
    the first, draws the next UUID and carries another identifier. And
    when two such streams are pulled in any order, the fragments of each
    carry one identifier and the two identifiers differ. *)
Theorem stream_ids_stable_and_unique
    (self : Qwen2VLChatModel) (messages : list message) (config : dict)
    (w : world) (inputs : BatchFeature) :
  let run := generate (engine self) (stream_kwargs config inputs) in
  let it := _generate_stream self messages config in
  let cid1 := str (uuid_clock w) in
  let cid2 := str (N.succ (uuid_clock w)) in
  prepare_on (engine self) messages (device (engine self)) = Return inputs ->
  cid1 <> cid2 /\
  (forall fuel1 fuel2,
     length (pushed run) + 2 <= fuel1 ->
     length (pushed run) + 2 <= fuel2 ->
     exists w1 w2,
       consume fuel1 self it w
         = (fragments self cid1 the_streamer run,
            Some (ending the_streamer run), w1) /\
       uuid_clock w1 = N.succ (uuid_clock w) /\
       consume fuel2 self it w1
         = (fragments self cid2 the_streamer run,
            Some (ending the_streamer run), w2) /\
       uuid_clock w2 = N.succ (N.succ (uuid_clock w))) /\
  Forall (fun c => id c = cid1) (fragments self cid1 the_streamer run) /\
  Forall (fun c => id c = cid2) (fragments self cid2 the_streamer run) /\
  (ending the_streamer run = Stopped ->
   last (fragments self cid1 the_streamer run)
     = Some (stop_chunk self cid1) /\
   id (stop_chunk self cid1) = cid1) /\
  (forall order : list bool,
     exists c1 c2 : string,
       c1 <> c2 /\
       Forall (fun c => id c = c1) (pull_both order self it it w).1.1 /\
       Forall (fun c => id c = c2) (pull_both order self it it w).1.2).
Proof.
  intros run it cid1 cid2 Hprep.
  split; [|split; [|split; [|split; [|split]]]].
  - intros H. apply str_inj in H. lia.
  - intros fuel1 fuel2 Hfuel1 Hfuel2.
    destruct (stream_start_Return self messages config w inputs Hprep)
      as (w1 & Hs1 & Hu1 & _).
    destruct (stream_start_Return self messages config w1 inputs Hprep)
      as (w2 & Hs2 & Hu2 & _).
    fold run in Hs1, Hs2. exists w1, w2. unfold it, _generate_stream.
    rewrite (consume_started _ _ _ _ _ _ _ _ _ Hs1 Hfuel1).
    rewrite (consume_started _ _ _ _ _ _ _ _ _ Hs2 Hfuel2).
    rewrite Hu2, Hu1. unfold cid1, cid2. repeat split.
  - apply fragments_id.
  - apply fragments_id.
  - intros Hend. unfold fragments. rewrite Hend. cbn [last_chunks].
    split; [apply last_snoc|reflexivity].
  - intros order.
    destruct (pull_both_ids order self (Created messages config)
                (Created messages config) w None None)
      as (f1 & f2 & Hf & _ & _ & _ & _ & H1 & H2).
    + split; [discriminate|reflexivity].
    + split; [discriminate|reflexivity].
    + discriminate.
    + exists (str f1), (str f2). split; [|split; assumption].
      intros H. apply Hf. now apply str_inj.
Qed.

Lemma stream_ids_stable_and_unique_witness :
  let self := sample_model run_ok in
  let it := _generate_stream self hello streaming in
  exists w1 w2,
    consume 5 self it w0
      = (fragments self "7" the_streamer run_ok, Some Stopped, w1) /\
    uuid_clock w1 = 8%N /\
    consume 5 self it w1
      = (fragments self "8" the_streamer run_ok, Some Stopped, w2) /\
    uuid_clock w2 = 9%N /\
    map id (fragments self "7" the_streamer run_ok) = ["7"; "7"; "7"; "7"] /\
    last (fragments self "7" the_streamer run_ok)
      = Some (stop_chunk self "7").
Proof.
  intros self it.
  destruct (stream_ids_stable_and_unique self hello streaming w0
              {| input_ids := [[11; 12; 13]%Z]; on_device := "cuda:0" |}
              eq_refl) as (_ & Hrun & _ & _ & Hlast & _).
  destruct (Hrun 5 5 ltac:(cbn; lia) ltac:(cbn; lia))
    as (w1 & w2 & H1 & Hu1 & H2 & Hu2).
  exists w1, w2. split; [exact H1|]. split; [exact Hu1|].
  split; [exact H2|]. split; [exact Hu2|]. split; [reflexivity|].
  exact (proj1 (Hlast eq_refl)).
Defined.

(** Two streams pulled in turn: the first one's fragments carry "7", the
    second one's "8". *)
Example stream_ids_of_two_streams :
  let order := [true; false; true; false; true; false; true; false] in
  let it := _generate_stream (sample_model run_ok) hello streaming in
  map id (pull_both order (sample_model run_ok) it it w0).1.1
    = ["7"; "7"; "7"; "7"] /\
  map id (pull_both order (sample_model run_ok) it it w0).1.2
    = ["8"; "8"; "8"; "8"].
Proof. split; reflexivity. Qed.

(** C10. Every fragment a stream yields, the last one with
    [finish_reason] "stop" included, reports -1 for each of the three
    token counts. *)
Theorem every_fragment_has_unknown_usage
    (self : Qwen2VLChatModel) (it it' : generator) (w w' : world)
    (c : CompletionChunk) :
  next self it w = (Yielded c, it', w') ->
  prompt_tokens (usage c) = (-1)%Z /\
  completion_tokens (usage c) = (-1)%Z /\
  total_tokens (usage c) = (-1)%Z.
Proof.
  assert (Hloop : forall cid s thread queue error it0,
            stream_loop self cid s thread queue error = (Yielded c, it0) ->
            usage c = unknown_usage).
  { intros cid s thread queue error it0. unfold stream_loop.
    destruct (streamer_next s thread queue error)
      as [[[[new_text| |] thread'] queue'] error'].
    - intros H; inversion H; reflexivity.
    - destruct error' as [[[? err] tb]|]; intros H; inversion H; reflexivity.
    - discriminate. }
  intros Hnext.
  assert (Hu : usage c = unknown_usage).
  { destruct it as [messages config|cid s thread queue error| |];
      cbn [next] in Hnext.
    - destruct (stream_start self messages config w)
        as [[[[cid s] thread]|e] w1]; [|discriminate].
      destruct (stream_loop _ _ _ _ _ _) as [p it0] eqn:Hl.
      inversion Hnext; subst. eapply Hloop, Hl.
    - destruct (stream_loop _ _ _ _ _ _) as [p it0] eqn:Hl.
      inversion Hnext; subst. eapply Hloop, Hl.
    - discriminate.
    - discriminate. }
  rewrite Hu. repeat split.
Qed.

Lemma every_fragment_has_unknown_usage_witness :
  let last := stop_chunk (sample_model run_ok) "7" in
  finish_reason last = Some "stop" /\
  prompt_tokens (usage last) = (-1)%Z /\
  completion_tokens (usage last) = (-1)%Z /\
  total_tokens (usage last) = (-1)%Z.
Proof.
  split; [reflexivity|].
  exact (every_fragment_has_unknown_usage (sample_model run_ok)
           (InLoop "7" the_streamer
              {| pushed := []; finish_wait := finish_wait run_ok;
                 finish := finish run_ok; held_back := held_back run_ok |}
              [] None)
           AtLastYield w0 w0 (stop_chunk (sample_model run_ok) "7") eq_refl).
Defined.

(** ** The blocking path *)

(** What [_generate] does once the preparation has succeeded: one call of
    [generate], on the keyword arguments without a streamer, then the
    decoding of the trimmed ids and the formatting of the first text. *)
Lemma _generate_prepared self messages config w inputs :
  prepare_on (engine self) messages (_device self) = Return inputs ->
  exists w',
    _generate self messages config w =
      (match finish (generate (engine self) (sync_kwargs config inputs)) with
       | Raise e => Raise e
       | Return generated_ids =>
           match batch_decode (engine self)
                   (trim (input_ids inputs) generated_ids) with
           | Raise e => Raise e
           | Return [] => Raise IndexError
           | Return (output_text :: _) =>
               Return (generate_chat_completion (model_uid self) output_text
                         None None None None)
           end
       end, w')
    /\ uuid_clock w' = uuid_clock w
    /\ generate_calls (new_calls w w') = [sync_kwargs config inputs].
Proof.
  unfold prepare_on, prepare, _generate, bind, engine_op, item0, ret, raise.
  intros H. cbn.
  destruct (apply_chat_template _ _) as [text|]; [|discriminate].
  destruct (process_vision_info _ _) as [[images videos]|]; [|discriminate].
  destruct (processor _ _ _ _) as [inputs0|]; [|discriminate].
  cbn. rewrite H. cbn. fold (sync_kwargs config inputs).
  destruct (finish (generate (engine self) (sync_kwargs config inputs)))
    as [generated_ids|e]; [|close_log (new_calls_app w)].
  cbn. destruct (batch_decode _ _) as [[|output_text rest]|e];
    close_log (new_calls_app w).
Qed.

(** When the preparation fails, [_generate] raises its error and never
    calls [generate]. *)
Lemma _generate_not_prepared self messages config w e :
  prepare_on (engine self) messages (_device self) = Raise e ->
  exists w',
    _generate self messages config w = (Raise e, w')
    /\ uuid_clock w' = uuid_clock w
    /\ generate_calls (new_calls w w') = [].
Proof.
  unfold prepare_on, prepare, _generate, bind, engine_op.
  intros H. cbn.
  destruct (apply_chat_template _ _) as [text|];
    [|inversion H; subst; close_log (new_calls_app w)].
  destruct (process_vision_info _ _) as [[images videos]|];
    [|inversion H; subst; close_log (new_calls_app w)].
  destruct (processor _ _ _ _) as [inputs0|];
    [|inversion H; subst; close_log (new_calls_app w)].
  cbn. rewrite H. close_log (new_calls_app w).
Qed.

(** Without [stream], no call returns an iterator. *)
Lemma chat_without_stream self messages generate_config w :
  truthy (stream_option generate_config) = false ->
  forall it w', chat self messages generate_config w
                <> (Return (Chunks it), w').
Proof.
  intros Hs it w'. rewrite chat_eq, Hs.
  destruct (_transform_messages messages w) as [[ms|e] w1]; [|discriminate].
  now destruct (_generate self ms (config_of generate_config) w1)
    as [[c|e] w2].
Qed.

(** C3. The truth value of the [stream] option, [False] when the config
    or the option is absent, decides the shape of what [chat] returns:
    with it, a valid conversation gets an iterator, at once, and no call
    returns a completion; without it, no call returns an iterator, and
    whatever [_generate] returns for a valid conversation is returned as
    one completion. *)
Theorem stream_option_decides_shape
    (self : Qwen2VLChatModel) (messages : list message)
    (generate_config : option dict) (w : world) :
  stream_option None = PyBool false /\
  (forall d, d !! "stream" = None -> stream_option (Some d) = PyBool false) /\
  (truthy (stream_option generate_config) = true ->
     (forall c w', chat self messages generate_config w
                   <> (Return (Completion c), w')) /\
     (_transform_messages messages w = (Return messages, w) ->
      chat self messages generate_config w
        = (Return (Chunks (_generate_stream self messages
                             (config_of generate_config))), w))) /\
  (truthy (stream_option generate_config) = false ->
     (forall it w', chat self messages generate_config w
                    <> (Return (Chunks it), w')) /\
     (forall c w',
        _transform_messages messages w = (Return messages, w) ->
        _generate self messages (config_of generate_config) w
          = (Return c, w') ->
        chat self messages generate_config w = (Return (Completion c), w'))).
Proof.
  split; [reflexivity|]. split.
  { intros d Hd. unfold stream_option, get. now rewrite Hd. }
  split; intros Hs.
  - rewrite chat_eq, Hs. split.
    + intros c w'. now destruct (_transform_messages messages w) as [[ms|e] w1].
    + intros Hv. now rewrite Hv.
  - split; [now apply chat_without_stream|].
    intros c w' Hv Hg. now rewrite chat_eq, Hs, Hv, Hg.
Qed.

Lemma stream_option_decides_shape_witness :
  chat (sample_model run_ok) hello (Some streaming) w0
    = (Return (Chunks (_generate_stream (sample_model run_ok) hello
                         streaming)), w0) /\
  exists c w',
    chat (sample_model run_ok) hello None w0 = (Return (Completion c), w').
Proof.
  split.
  - exact (proj2 (proj1 (proj2 (proj2 (stream_option_decides_shape
             (sample_model run_ok) hello (Some streaming) w0))) eq_refl)
             eq_refl).
  - eexists _, _.
    exact (proj2 (proj2 (proj2 (proj2 (stream_option_decides_shape
             (sample_model run_ok) hello None w0))) eq_refl)
             _ _ eq_refl eq_refl).
Defined.

(** C4. For the empty conversation [chat] raises [ValidationError],
    whatever the config and so with and without [stream]; it does so at
    the call, and the world is as before: no engine operation has run. *)
Theorem empty_conversation_is_rejected
    (self : Qwen2VLChatModel) (generate_config : option dict) (w : world) :
  chat self [] generate_config w = (Raise ValidationError, w) /\
  new_calls w (chat self [] generate_config w).2 = [].
Proof.
  assert (H : chat self [] generate_config w = (Raise ValidationError, w))
    by now rewrite chat_eq.
  split; [assumption|]. rewrite H. apply new_calls_same.
Qed.

(** C5, as the claim states it, fails: the answer to a conversation of
    three prompt tokens and three generated tokens has [finish_reason]
    "stop", but each usage counter is the sentinel -1. *)
Lemma completion_usage_counterexample :
  exists c w',
    chat (sample_model run_ok) hello None w0 = (Return (Completion c), w') /\
    completion_finish_reason c = Some "stop" /\
    completion_usage c = unknown_usage /\
    ~ reports_counts (completion_usage c).
Proof.
  eexists _, _. split; [vm_compute; reflexivity|]. split; [reflexivity|].
  split; [reflexivity|]. intros (H & _). now apply H.
Qed.

(** C5, amended. Without [stream], for a valid conversation whose
    preparation, generation and decoding succeed, [chat] returns one
    completion: its text is the first decoded text, its [finish_reason] is
    "stop", and its usage counters are the sentinel -1, since [_generate]
    hands no token count to the formatter. *)
Theorem completion_has_stop_and_unknown_usage
    (self : Qwen2VLChatModel) (messages : list message)
    (generate_config : option dict) (w : world) (inputs : BatchFeature)
    (generated_ids : list (list Z)) (output_text : string)
    (rest : list string) :
  let config := config_of generate_config in
  truthy (stream_option generate_config) = false ->
  _transform_messages messages w = (Return messages, w) ->
  prepare_on (engine self) messages (_device self) = Return inputs ->
  finish (generate (engine self) (sync_kwargs config inputs))
    = Return generated_ids ->
  batch_decode (engine self) (trim (input_ids inputs) generated_ids)
    = Return (output_text :: rest) ->
  exists c w',
    chat self messages generate_config w = (Return (Completion c), w') /\
    completion_text c = output_text /\
    completion_finish_reason c = Some "stop" /\
    completion_usage c = unknown_usage.
Proof.
  intros config Hs Hv Hp Hg Hd.
  destruct (_generate_prepared self messages config w inputs Hp)
    as (w' & Hgen & _). rewrite Hg, Hd in Hgen.
  eexists _, w'. split.
  - rewrite chat_eq, Hv, Hs. fold config. now rewrite Hgen.
  - repeat split.
Qed.

Lemma completion_has_stop_and_unknown_usage_witness :
  exists c w',
    chat (sample_model run_ok) hello None w0 = (Return (Completion c), w') /\
    completion_text c = "Hello world" /\
    completion_finish_reason c = Some "stop" /\
    completion_usage c = unknown_usage.
Proof.
  exact (completion_has_stop_and_unknown_usage (sample_model run_ok) hello
           None w0 {| input_ids := [[11; 12; 13]%Z]; on_device := "cuda" |}
           [[11; 12; 13; 21; 22; 23]%Z] "Hello world" []
           eq_refl eq_refl eq_refl eq_refl eq_refl).
Defined.

(** C6. An option the config leaves out takes its default. Without
    [stream] [chat] returns no iterator. Without [max_tokens] the one call
    of [generate] gets [max_new_tokens = 512], and without [temperature]
    it gets [temperature = 1], which equals 1.0; this holds for the call
    [_generate] makes and for the call the first pull of
    [_generate_stream] makes. *)
Theorem defaults_are_applied
    (self : Qwen2VLChatModel) (messages : list message)
    (generate_config : option dict) (w : world) :
  let config := config_of generate_config in
  (config !! "stream" = None ->
   forall it w', chat self messages generate_config w
                 <> (Return (Chunks it), w')) /\
  (forall inputs,
     prepare_on (engine self) messages (_device self) = Return inputs ->
     exists kwargs,
       generate_calls (new_calls w (_generate self messages config w).2)
         = [kwargs] /\
       (config !! "max_tokens" = None -> max_new_tokens kwargs = PyInt 512) /\
       (config !! "temperature" = None ->
        temperature kwargs = PyInt 1 /\
        py_eq (temperature kwargs) (PyFloat 1) = true)) /\
  (forall inputs,
     prepare_on (engine self) messages (device (engine self)) = Return inputs ->
     exists kwargs,
       generate_calls
         (new_calls w (next self (_generate_stream self messages config) w).2)
         = [kwargs] /\
       (config !! "max_tokens" = None -> max_new_tokens kwargs = PyInt 512) /\
       (config !! "temperature" = None ->
        temperature kwargs = PyInt 1 /\
        py_eq (temperature kwargs) (PyFloat 1) = true)).
Proof.
  intros config. split; [|split].
  - intros Hs.
    assert (Hopt : truthy (stream_option generate_config) = false).
    { destruct generate_config as [d|]; [|reflexivity].
      unfold stream_option, get. cbn in Hs. now rewrite Hs. }
    now apply chat_without_stream.
  - intros inputs Hp.
    destruct (_generate_prepared self messages config w inputs Hp)
      as (w' & Hgen & _ & Hlog).
    exists (sync_kwargs config inputs). rewrite Hgen. cbn [snd].
    split; [assumption|]. unfold sync_kwargs, get; cbn.
    split; [now intros ->|]. intros ->. split; reflexivity.
  - intros inputs Hp.
    destruct (stream_start_Return self messages config w inputs Hp)
      as (w' & Hstart & _ & Hlog).
    exists (stream_kwargs config inputs). cbn [next _generate_stream].
    rewrite Hstart. destruct (stream_loop _ _ _ _ _) as [p it']. cbn [snd].
    split; [assumption|]. unfold stream_kwargs, get; cbn.
    split; [now intros ->|]. intros ->. split; reflexivity.
Qed.

Lemma defaults_are_applied_witness :
  (forall it w', chat (sample_model run_ok) hello None w0
                 <> (Return (Chunks it), w')) /\
  (exists kwargs,
     generate_calls
       (new_calls w0 (_generate (sample_model run_ok) hello ∅ w0).2)
       = [kwargs] /\
     max_new_tokens kwargs = PyInt 512 /\
     temperature kwargs = PyInt 1 /\
     py_eq (temperature kwargs) (PyFloat 1) = true) /\
  (exists kwargs,
     generate_calls
       (new_calls w0
          (next (sample_model run_ok)
                (_generate_stream (sample_model run_ok) hello ∅) w0).2)
       = [kwargs] /\
     max_new_tokens kwargs = PyInt 512 /\
     temperature kwargs = PyInt 1 /\
     py_eq (temperature kwargs) (PyFloat 1) = true).
Proof.
  destruct (defaults_are_applied (sample_model run_ok) hello None w0)
    as (Hstream & Hsync & Hlazy).
  split; [exact (Hstream eq_refl)|]. split.
  - destruct (Hsync {| input_ids := [[11; 12; 13]%Z]; on_device := "cuda" |}
                eq_refl) as (kwargs & Hlog & Hmax & Htemp).
    exists kwargs. split; [exact Hlog|]. split; [exact (Hmax eq_refl)|].
    exact (Htemp eq_refl).
  - destruct (Hlazy {| input_ids := [[11; 12; 13]%Z]; on_device := "cuda:0" |}
                eq_refl) as (kwargs & Hlog & Hmax & Htemp).
    exists kwargs. split; [exact Hlog|]. split; [exact (Hmax eq_refl)|].
    exact (Htemp eq_refl).
Defined.

(** * Further properties *)

(** ** Substrings *)

Lemma startswith_spec (s p : string) :
  startswith s p = true <-> exists post, s = (p ++ post)%string.
Proof.
  revert s. induction p as [|a p IH]; intros s; cbn.
  - split; [intros _; now exists s|intros _; now destruct s].
  - destruct s as [|b s]; cbn.
    + split; [discriminate|intros [post H]; discriminate].
    + rewrite andb_true_iff, Ascii.eqb_eq, IH. split.
      * intros [Hab [post Hs]]. subst. now exists post.
      * intros [post H]. inversion H; subst. split; [reflexivity|].
        now exists post.
Qed.

(** [needle in hay] holds exactly when [hay] is some text, [needle], and
    some more text. *)
Lemma contains_spec (needle hay : string) :
  contains needle hay = true <->
  exists pre post, hay = (pre ++ needle ++ post)%string.
Proof.
  induction hay as [|c hay IH]; cbn [contains].
  - rewrite orb_false_r, startswith_spec. split.
    + intros [post H]. now exists EmptyString, post.
    + intros (pre & post & H). destruct pre; cbn in H; [now exists post|].
      discriminate.
  - rewrite orb_true_iff, startswith_spec, IH. split.
    + intros [[post H]|(pre & post & H)].
      * now exists EmptyString, post.
      * exists (String c pre), post. cbn. now rewrite H.
    + intros (pre & post & H). destruct pre as [|b pre]; cbn in H.
      * left. now exists post.
      * right. inversion H; subst. now exists pre, post.
Qed.

Lemma lower_app (a b : string) :
  lower (a ++ b)%string = (lower a ++ lower b)%string.
Proof. induction a as [|c a IH]; simpl; [reflexivity|]. now rewrite IH. Qed.

Lemma string_app_assoc (a b c : string) :
  ((a ++ b) ++ c)%string = (a ++ b ++ c)%string.
Proof.
  induction a as [|x a IH]; [reflexivity|].
  change (String x ((a ++ b) ++ c)%string = String x (a ++ b ++ c)%string).
  now rewrite IH.
Qed.

(** A needle that is found is found with less at its end. *)
Lemma contains_shorter (a b hay : string) :
  contains (a ++ b)%string hay = true -> contains a hay = true.
Proof.
  rewrite !contains_spec. intros (pre & post & H).
  exists pre, (b ++ post)%string. now rewrite H, string_app_assoc.
Qed.

(** ** [match] *)

(** The names [match] looks for. *)
Lemma known_families_lower :
  lower "qwen2-vl-instruct" = "qwen2-vl-instruct" /\
  lower "qwen2.5-vl-instruct" = "qwen2.5-vl-instruct" /\
  lower "qvq-72b-preview" = "qvq-72b-preview".
Proof. repeat split. Qed.

(** X1. [match] accepts exactly the models whose format is one of
    "pytorch", "gptq" and "awq", spelled so, and whose family (or name,
    when the family is unset or empty) holds, in any mix of upper and
    lower case and with any text around it, one of "qwen2-vl-instruct",
    "qwen2.5-vl-instruct" and "qvq-72b-preview". The quantization plays
    no part. *)
Theorem match_iff (family : LLMFamilyV1) (spec : LLMSpecV1)
    (quantization : string) :
  match_ family spec quantization = true <->
  In (model_format spec) ["pytorch"; "gptq"; "awq"] /\
  exists known pre post,
    In known ["qwen2-vl-instruct"; "qwen2.5-vl-instruct"; "qvq-72b-preview"]
    /\ lower (llm_family_of family) = (pre ++ known ++ post)%string.
Proof.
  unfold match_.
  destruct known_families_lower as (-> & -> & ->).
  assert (Hfmt : existsb (String.eqb (model_format spec))
                   ["pytorch"; "gptq"; "awq"] = true
                 <-> In (model_format spec) ["pytorch"; "gptq"; "awq"]).
  { rewrite existsb_exists. split.
    - intros (x & Hx & Heq). apply String.eqb_eq in Heq. now subst.
    - intros H. exists (model_format spec). split; [assumption|].
      apply String.eqb_refl. }
  destruct (existsb _ _) eqn:Hex; cbn [negb].
  2:{ split; [discriminate|]. intros [H _]. apply Hfmt in H. discriminate. }
  set (name := lower (llm_family_of family)).
  destruct (contains "qwen2-vl-instruct" name) eqn:H1.
  { split; [intros _|reflexivity]. split; [now apply Hfmt|].
    apply contains_spec in H1 as (pre & post & H).
    exists "qwen2-vl-instruct", pre, post. split; [cbn; auto|assumption]. }
  destruct (contains "qwen2.5-vl-instruct" name) eqn:H2.
  { split; [intros _|reflexivity]. split; [now apply Hfmt|].
    apply contains_spec in H2 as (pre & post & H).
    exists "qwen2.5-vl-instruct", pre, post. split; [cbn; auto|assumption]. }
  destruct (contains "qvq-72b-preview" name) eqn:H3.
  { split; [intros _|reflexivity]. split; [now apply Hfmt|].
    apply contains_spec in H3 as (pre & post & H).
    exists "qvq-72b-preview", pre, post. split; [cbn; auto|assumption]. }
  split; [discriminate|]. intros (_ & known & pre & post & Hk & Hn).
  assert (Hc : contains known name = true)
    by (apply contains_spec; now exists pre, post).
  cbn in Hk. destruct Hk as [<-|[<-|[<-|[]]]]; congruence.
Qed.

(** ** [_sanitize_model_config] *)

Lemma setdefault_lookup (d : dict) (k : string) (v : pyval) (j : string) :
  setdefault d k v !! j =
  match d !! j with
  | Some x => Some x
  | None => if decide (k = j) then Some v else None
  end.
Proof.
  unfold setdefault. destruct (d !! k) eqn:Hk.
  - destruct (d !! j) eqn:Hj; [reflexivity|].
    destruct (decide (k = j)); [congruence|reflexivity].
  - rewrite lookup_insert. destruct (decide (k = j)) as [->|Hne].
    + now rewrite Hk.
    + now destruct (d !! j).
Qed.

(** X2. When the base class hands back a config, every value it holds is
    kept, also an explicit [None]; [min_pixels] and [max_pixels] are added
    as 200704 and 1003520 where they are missing, and no other key is
    added. *)
Theorem sanitize_keeps_values_and_adds_pixels
    (super_sanitize : option dict -> outcome (option dict))
    (given : option dict) (config : dict) :
  super_sanitize given = Return (Some config) ->
  exists sanitized,
    _sanitize_model_config super_sanitize given = Return sanitized /\
    forall k : string,
      sanitized !! k =
      match config !! k with
      | Some v => Some v
      | None =>
          if decide (k = "min_pixels") then Some (PyInt 200704)
          else if decide (k = "max_pixels") then Some (PyInt 1003520)
          else None
      end.
Proof.
  intros Hs. unfold _sanitize_model_config. rewrite Hs.
  eexists. split; [reflexivity|]. intros k.
  rewrite !setdefault_lookup.
  destruct (config !! k); [reflexivity|].
  destruct (decide ("min_pixels" = k)) as [<-|H1].
  - reflexivity.
  - destruct (decide (k = "min_pixels")); [congruence|].
    destruct (decide ("max_pixels" = k)) as [<-|H2]; [reflexivity|].
    destruct (decide (k = "max_pixels")); [congruence|reflexivity].
Qed.

Lemma sanitize_keeps_values_and_adds_pixels_witness :
  exists sanitized,
    _sanitize_model_config (fun c => Return c)
      (Some {[ "min_pixels" := PyNone; "device" := PyStr "cpu" ]})
      = Return sanitized /\
    sanitized !! "min_pixels" = Some PyNone /\
    sanitized !! "max_pixels" = Some (PyInt 1003520) /\
    sanitized !! "device" = Some (PyStr "cpu") /\
    sanitized !! "quantization" = None.
Proof.
  destruct (sanitize_keeps_values_and_adds_pixels (fun c => Return c)
              (Some {[ "min_pixels" := PyNone; "device" := PyStr "cpu" ]})
              {[ "min_pixels" := PyNone; "device" := PyStr "cpu" ]} eq_refl)
    as (sanitized & Hs & Hk).
  exists sanitized. split; [exact Hs|].
  rewrite !Hk. repeat split.
Defined.

(** X3. Sanitizing a sanitized config again changes nothing, when the
    base class leaves it alone. *)
Theorem sanitize_twice
    (super_sanitize : option dict -> outcome (option dict))
    (given : option dict) (sanitized : dict) :
  _sanitize_model_config super_sanitize given = Return sanitized ->
  _sanitize_model_config (fun c => Return c) (Some sanitized)
    = Return sanitized.
Proof.
  unfold _sanitize_model_config.
  destruct (super_sanitize given) as [[config|]|e]; try discriminate.
  intros H. inversion H as [Hr]. clear H. f_equal.
  apply map_eq. intros k. rewrite !setdefault_lookup.
  destruct (config !! k); [reflexivity|].
  destruct (decide ("min_pixels" = k)); [reflexivity|].
  destruct (decide ("max_pixels" = k)); reflexivity.
Qed.

Lemma sanitize_twice_witness :
  _sanitize_model_config (fun c => Return c)
    (Some (setdefault (setdefault ∅ "min_pixels" (PyInt (256 * 28 * 28)))
                      "max_pixels" (PyInt (1280 * 28 * 28))))
  = Return (setdefault (setdefault ∅ "min_pixels" (PyInt (256 * 28 * 28)))
                       "max_pixels" (PyInt (1280 * 28 * 28))).
Proof.
  exact (sanitize_twice (fun c => Return c) (Some ∅) _ eq_refl).
Defined.

(** ** [load] *)

(** What a [load] that returns has done. *)
Lemma load_Return (env : environment) (self self' : instance) :
  load env self = (Return tt, self') ->
  exists selected cls,
    select_device env (get (_pytorch_model_config self) "device"
                           (PyStr "auto")) = Return selected /\
    (if contains "qwen2.5" (llm_family_of (self_model_family self))
     then Qwen2_5_VL_importable env = true
          /\ cls = Qwen2_5_VLForConditionalGeneration
     else cls = Qwen2VLForConditionalGeneration) /\
    self_device self' = Some selected /\
    self_model self' =
      Some (pretrained_args env cls (model_path self)
              (if String.eqb selected "cuda" then "auto" else selected)) /\
    self_processor self' = self_tokenizer self' /\
    self_processor self' =
      Some {| processor_path := model_path self;
              processor_trust_remote_code := true;
              min_pixels := get (_pytorch_model_config self)
                                "min_pixels" PyNone;
              max_pixels := get (_pytorch_model_config self)
                                "max_pixels" PyNone |}.
Proof.
  unfold load.
  destruct (select_device env _) as [selected|e]; [|discriminate].
  cbn [model_path _pytorch_model_config self_model_family].
  destruct (processor_from_pretrained env _) as [e|]; [discriminate|].
  destruct (contains "qwen2.5" _) eqn:Hfam.
  - destruct (Qwen2_5_VL_importable env) eqn:Himp; [|discriminate].
    destruct (model_from_pretrained env _) as [e|]; [discriminate|].
    intros H; inversion H; subst; clear H.
    exists selected, Qwen2_5_VLForConditionalGeneration. cbn.
    repeat split; reflexivity.
  - destruct (model_from_pretrained env _) as [e|]; [discriminate|].
    intros H; inversion H; subst; clear H.
    exists selected, Qwen2VLForConditionalGeneration. cbn.
    repeat split; reflexivity.
Qed.

(** X4. After a [load] that returns, [_device] is what [select_device]
    selected, and the model was loaded with a [device_map] that is never
    "cuda": it is "auto" where "cuda" was selected. *)
Theorem load_never_maps_to_cuda (env : environment) (self self' : instance) :
  load env self = (Return tt, self') ->
  exists selected args,
    select_device env (get (_pytorch_model_config self) "device"
                           (PyStr "auto")) = Return selected /\
    self_device self' = Some selected /\
    self_model self' = Some args /\
    device_map args <> "cuda" /\
    (selected = "cuda" -> device_map args = "auto").
Proof.
  intros H. apply load_Return in H
    as (selected & cls & Hsel & _ & Hdev & Hmodel & _).
  eexists selected, _. split; [assumption|]. split; [assumption|].
  split; [eassumption|]. unfold pretrained_args.
  destruct (String.eqb selected "cuda") eqn:Heq.
  - split.
    + destruct (flash_attn_installed env), (is_npu_available env);
        cbn; discriminate.
    + intros _.
      destruct (flash_attn_installed env), (is_npu_available env);
        reflexivity.
  - apply String.eqb_neq in Heq. split; [|contradiction].
    destruct (flash_attn_installed env), (is_npu_available env);
      cbn; congruence.
Qed.

Lemma load_never_maps_to_cuda_witness :
  exists selected args,
    self_device (load (sample_environment "cuda" true true false)
                   (__init__ "/models/qwen" qwen25_lowercase ∅)).2
      = Some selected /\
    selected = "cuda" /\
    self_model (load (sample_environment "cuda" true true false)
                  (__init__ "/models/qwen" qwen25_lowercase ∅)).2
      = Some args /\
    device_map args = "auto".
Proof.
  destruct (load_never_maps_to_cuda (sample_environment "cuda" true true false)
              (__init__ "/models/qwen" qwen25_lowercase ∅) _ eq_refl)
    as (selected & args & Hsel & Hdev & Hmodel & _ & Hauto).
  exists selected, args. inversion Hsel; subst.
  split; [exact Hdev|]. split; [reflexivity|]. split; [exact Hmodel|].
  exact (Hauto eq_refl).
Defined.



(** X6. After a [load] that returns: with [flash_attn] installed the
    model was loaded in "bfloat16" with "flash_attention_2", on an NPU
    too; without it and on an NPU, in "float16" with [device_map] "auto"
    whatever device was selected; otherwise without a dtype. In each case
    without another attention implementation and with
    [trust_remote_code]. *)
Theorem load_precision (env : environment) (self self' : instance) :
  load env self = (Return tt, self') ->
  exists args,
    self_model self' = Some args /\
    trust_remote_code args = true /\
    (flash_attn_installed env = true ->
     torch_dtype args = Some "bfloat16" /\
     attn_implementation args = Some "flash_attention_2") /\
    (flash_attn_installed env = false ->
     attn_implementation args = None /\
     (is_npu_available env = true ->
      torch_dtype args = Some "float16" /\ device_map args = "auto") /\
     (is_npu_available env = false -> torch_dtype args = None)).
Proof.
  intros H. apply load_Return in H as (selected & cls & _ & _ & _ & Hm & _).
  eexists. split; [exact Hm|]. unfold pretrained_args.
  destruct (flash_attn_installed env), (is_npu_available env); cbn;
    repeat split; congruence.
Qed.

Lemma load_precision_witness :
  exists args,
    self_model (load (sample_environment "npu" true true true)
                  (__init__ "/models/qwen" qwen25_lowercase ∅)).2
      = Some args /\
    torch_dtype args = Some "bfloat16" /\
    attn_implementation args = Some "flash_attention_2".
Proof.
  destruct (load_precision (sample_environment "npu" true true true)
              (__init__ "/models/qwen" qwen25_lowercase ∅) _ eq_refl)
    as (args & Hm & _ & Hflash & _).
  exists args. split; [exact Hm|]. exact (Hflash eq_refl).
Defined.

(** X7. A config that went through [_sanitize_model_config] gives the
    processor its pixel bounds: whatever [load] goes on to do, a processor
    it has loaded was given the [min_pixels] and [max_pixels] of the
    config where it had them, and 200704 and 1003520 where it had not. *)
Theorem load_after_sanitize
    (super_sanitize : option dict -> outcome (option dict))
    (given : option dict) (config sanitized : dict)
    (env : environment) (path : string) (family : LLMFamilyV1)
    (processor : processor_args) :
  super_sanitize given = Return (Some config) ->
  _sanitize_model_config super_sanitize given = Return sanitized ->
  self_processor (load env (__init__ path family sanitized)).2
    = Some processor ->
  min_pixels processor = default (PyInt 200704) (config !! "min_pixels") /\
  max_pixels processor = default (PyInt 1003520) (config !! "max_pixels").
Proof.
  intros Hsuper Hsan.
  unfold _sanitize_model_config in Hsan. rewrite Hsuper in Hsan.
  inversion Hsan as [Hs]. clear Hsan.
  assert (Hmin : get sanitized "min_pixels" PyNone
                 = default (PyInt 200704) (config !! "min_pixels")).
  { unfold get. rewrite <- Hs, !setdefault_lookup.
    now destruct (config !! "min_pixels"). }
  assert (Hmax : get sanitized "max_pixels" PyNone
                 = default (PyInt 1003520) (config !! "max_pixels")).
  { unfold get. rewrite <- Hs, !setdefault_lookup.
    now destruct (config !! "max_pixels"). }
  rewrite Hs. unfold load, __init__.
  cbn [model_path _pytorch_model_config self_model_family self_model
       self_device self_processor self_tokenizer].
  destruct (select_device env _) as [selected|e]; [|discriminate].
  destruct (processor_from_pretrained env _) as [e|]; [discriminate|].
  assert (Hgoal : forall p : processor_args,
            Some {| processor_path := path;
                    processor_trust_remote_code := true;
                    min_pixels := get sanitized "min_pixels" PyNone;
                    max_pixels := get sanitized "max_pixels" PyNone |}
            = Some p ->
            min_pixels p = default (PyInt 200704) (config !! "min_pixels") /\
            max_pixels p = default (PyInt 1003520) (config !! "max_pixels")).
  { intros p Hp. inversion Hp; subst p. cbn. now split. }
  destruct (contains "qwen2.5" _).
  - destruct (Qwen2_5_VL_importable env); [|exact (Hgoal processor)].
    destruct (model_from_pretrained env _); exact (Hgoal processor).
  - destruct (model_from_pretrained env _); exact (Hgoal processor).
Qed.

Lemma load_after_sanitize_witness :
  exists processor,
    self_processor
      (load (sample_environment "cuda" true false false)
            (__init__ "/models/qwen" qwen25_lowercase
               (setdefault
                  (setdefault {[ "min_pixels" := PyInt 3136 ]}
                              "min_pixels" (PyInt (256 * 28 * 28)))
                  "max_pixels" (PyInt (1280 * 28 * 28))))).2
      = Some processor /\
    min_pixels processor = PyInt 3136 /\
    max_pixels processor = PyInt 1003520.
Proof.
  eexists. split; [reflexivity|].
  exact (load_after_sanitize (fun c => Return c)
           (Some {[ "min_pixels" := PyInt 3136 ]})
           {[ "min_pixels" := PyInt 3136 ]} _
           (sample_environment "cuda" true false false)
           "/models/qwen" qwen25_lowercase _ eq_refl eq_refl eq_refl).
Defined.

(** X8. [load] looks for "qwen2.5" as it is spelled: a family without
    that lower-case text is loaded with [Qwen2VLForConditionalGeneration],
    also one that [match] accepts as "qwen2.5-vl-instruct" in capitals. *)
Theorem load_class_is_case_sensitive
    (env : environment) (self self' : instance) :
  load env self = (Return tt, self') ->
  contains "qwen2.5" (llm_family_of (self_model_family self)) = false ->
  exists args,
    self_model self' = Some args /\
    model_cls args = Qwen2VLForConditionalGeneration.
Proof.
  intros H Hfam.
  apply load_Return in H as (selected & cls & _ & Hcls & _ & Hm & _).
  rewrite Hfam in Hcls. subst cls. eexists. split; [exact Hm|].
  unfold pretrained_args.
  now destruct (flash_attn_installed env), (is_npu_available env).
Qed.

Lemma load_class_is_case_sensitive_witness :
  match_ Qwen25_capitals pytorch_spec "none" = true /\
  contains "qwen2.5-vl-instruct" (lower (llm_family_of Qwen25_capitals))
    = true /\
  exists args,
    self_model (load (sample_environment "cuda" true false false)
                  (__init__ "/models/qwen" Qwen25_capitals ∅)).2
      = Some args /\
    model_cls args = Qwen2VLForConditionalGeneration.
Proof.
  split; [reflexivity|]. split; [reflexivity|].
  exact (load_class_is_case_sensitive
           (sample_environment "cuda" true false false)
           (__init__ "/models/qwen" Qwen25_capitals ∅) _ eq_refl eq_refl).
Defined.

(** X9. A family with "qwen2.5-vl-instruct" in its name, in lower case,
    is loaded with [Qwen2_5_VLForConditionalGeneration] or not at all:
    a [load] that returns has found that class in [transformers]. *)
Theorem load_class_of_qwen25
    (env : environment) (self self' : instance) :
  load env self = (Return tt, self') ->
  contains "qwen2.5-vl-instruct" (llm_family_of (self_model_family self))
    = true ->
  Qwen2_5_VL_importable env = true /\
  exists args,
    self_model self' = Some args /\
    model_cls args = Qwen2_5_VLForConditionalGeneration.
Proof.
  intros H Hfam.
  apply (contains_shorter "qwen2.5" "-vl-instruct") in Hfam.
  apply load_Return in H as (selected & cls & _ & Hcls & _ & Hm & _).
  rewrite Hfam in Hcls. destruct Hcls as [Himp ->].
  split; [assumption|]. eexists. split; [exact Hm|].
  unfold pretrained_args.
  now destruct (flash_attn_installed env), (is_npu_available env).
Qed.

Lemma load_class_of_qwen25_witness :
  exists args,
    self_model (load (sample_environment "cuda" true false false)
                  (__init__ "/models/qwen" qwen25_lowercase ∅)).2
      = Some args /\
    model_cls args = Qwen2_5_VLForConditionalGeneration.
Proof.
  exact (proj2 (load_class_of_qwen25
                  (sample_environment "cuda" true false false)
                  (__init__ "/models/qwen" qwen25_lowercase ∅) _
                  eq_refl eq_refl)).
Defined.

(** ** [_generate] *)

(** X10. When each generated sequence is its prompt followed by new ids,
    the trimming gives back exactly the new ids. *)
Theorem trim_strips_the_prompt (prompts news : list (list Z)) :
  length prompts = length news ->
  trim prompts (zip_with app prompts news) = news.
Proof.
  revert news. induction prompts as [|p prompts IH]; intros [|n news] Hlen;
    try discriminate; [reflexivity|].
  cbn [zip_with trim]. rewrite drop_app_length. f_equal.
  apply IH. now inversion Hlen.
Qed.

Lemma trim_strips_the_prompt_witness :
  trim [[11; 12; 13]; [11]]%Z
       (zip_with app [[11; 12; 13]; [11]]%Z [[21; 22]; []]%Z)
  = [[21; 22]; []]%Z.
Proof.
  exact (trim_strips_the_prompt [[11; 12; 13]; [11]]%Z [[21; 22]; []]%Z
           eq_refl).
Defined.

(** X11. The trimming pairs prompts and generated sequences by position
    and stops at the shorter list; each pair gives the generated sequence
    without as many leading ids as its prompt has, which is nothing when
    the prompt is the longer one. *)
Theorem trim_by_position (prompts generated : list (list Z)) :
  length (trim prompts generated)
    = Nat.min (length prompts) (length generated) /\
  forall (i : nat) (in_ids out_ids : list Z),
    prompts !! i = Some in_ids ->
    generated !! i = Some out_ids ->
    trim prompts generated !! i = Some (drop (length in_ids) out_ids) /\
    length (drop (length in_ids) out_ids)
      = length out_ids - length in_ids.
Proof.
  split.
  - revert generated. induction prompts as [|p prompts IH];
      intros [|g generated]; cbn; try reflexivity. now rewrite IH.
  - revert generated. induction prompts as [|p prompts IH];
      intros [|g generated] i in_ids out_ids Hp Hg; try discriminate.
    destruct i as [|i]; cbn in *.
    + inversion Hp; inversion Hg; subst. split; [reflexivity|].
      apply length_drop.
    + now apply IH.
Qed.

Lemma trim_by_position_witness :
  trim [[11; 12; 13]; [11]]%Z [[11; 12]]%Z !! 0 = Some [] /\
  length (trim [[11; 12; 13]; [11]]%Z [[11; 12]]%Z) = 1.
Proof.
  destruct (trim_by_position [[11; 12; 13]; [11]]%Z [[11; 12]]%Z)
    as [Hlen Hat].
  split; [exact (proj1 (Hat 0 _ _ eq_refl eq_refl))|exact Hlen].
Defined.

(** The whole of [_generate] once the preparation has succeeded, with the
    engine operations it has performed. *)
Lemma _generate_log self messages config w text images videos inputs0 inputs :
  apply_chat_template (engine self) messages = Return text ->
  process_vision_info (engine self) messages = Return (images, videos) ->
  processor (engine self) [text] images videos = Return inputs0 ->
  to (engine self) inputs0 (_device self) = Return inputs ->
  let kwargs := sync_kwargs config inputs in
  let prepared := [CallApplyChatTemplate messages;
                   CallProcessVisionInfo messages;
                   CallProcessor [text] images videos;
                   CallTo (_device self); CallGenerate kwargs] in
  exists w',
    uuid_clock w' = uuid_clock w /\
    match finish (generate (engine self) kwargs) with
    | Raise e =>
        _generate self messages config w = (Raise e, w') /\
        new_calls w w' = prepared
    | Return generated_ids =>
        let trimmed := trim (input_ids inputs) generated_ids in
        new_calls w w' = prepared ++ [CallBatchDecode trimmed] /\
        _generate self messages config w =
          (match batch_decode (engine self) trimmed with
           | Raise e => Raise e
           | Return [] => Raise IndexError
           | Return (output_text :: _) =>
               Return (generate_chat_completion (model_uid self)
                         output_text None None None None)
           end, w')
    end.
Proof.
  intros Ht Hv Hp Hto kwargs prepared.
  unfold _generate, bind, engine_op, item0, ret, raise. cbn.
  rewrite Ht, Hv. cbn. rewrite Hp. cbn. rewrite Hto. cbn.
  fold (sync_kwargs config inputs). fold kwargs.
  destruct (finish (generate (engine self) kwargs)) as [generated_ids|e].
  - cbn. destruct (batch_decode _ _) as [[|output_text rest]|e];
      (eexists; split; [|split]; [ | |reflexivity];
       [reflexivity|cbn; rewrite <- !app_assoc; apply (new_calls_app w)]).
  - eexists; split; [|split]; [ |reflexivity| ];
      [reflexivity|cbn; rewrite <- !app_assoc; apply (new_calls_app w)].
Qed.

(** X12. Without [stream], an exception that [generate] raises reaches
    the caller of [chat] as it is. [generate] was called once, after the
    four steps of the preparation, and nothing was decoded afterwards. *)
Theorem generation_error_reaches_the_caller
    (self : Qwen2VLChatModel) (messages : list message)
    (generate_config : option dict) (w : world) (text : string)
    (images videos : vision) (inputs0 inputs : BatchFeature)
    (e : exception) :
  let kwargs := sync_kwargs (config_of generate_config) inputs in
  truthy (stream_option generate_config) = false ->
  _transform_messages messages w = (Return messages, w) ->
  apply_chat_template (engine self) messages = Return text ->
  process_vision_info (engine self) messages = Return (images, videos) ->
  processor (engine self) [text] images videos = Return inputs0 ->
  to (engine self) inputs0 (_device self) = Return inputs ->
  finish (generate (engine self) kwargs) = Raise e ->
  exists w',
    chat self messages generate_config w = (Raise e, w') /\
    new_calls w w' = [CallApplyChatTemplate messages;
                      CallProcessVisionInfo messages;
                      CallProcessor [text] images videos;
                      CallTo (_device self); CallGenerate kwargs].
Proof.
  intros kwargs Hs Hvalid Ht Hv Hp Hto Hg.
  destruct (_generate_log self messages (config_of generate_config) w
              text images videos inputs0 inputs Ht Hv Hp Hto)
    as (w' & _ & Hlog).
  fold kwargs in Hlog. rewrite Hg in Hlog. destruct Hlog as [Hgen Hcalls].
  exists w'. split; [|assumption].
  now rewrite chat_eq, Hvalid, Hs, Hgen.
Qed.

Lemma generation_error_reaches_the_caller_witness :
  exists w',
    chat (sample_model run_fails) hello None w0 = (Raise RuntimeError, w') /\
    new_calls w0 w' =
      [CallApplyChatTemplate hello; CallProcessVisionInfo hello;
       CallProcessor ["<|im_start|>user"] None None; CallTo "cuda";
       CallGenerate
         (sync_kwargs ∅
            {| input_ids := [[11; 12; 13]%Z]; on_device := "cuda" |})].
Proof.
  exact (generation_error_reaches_the_caller (sample_model run_fails) hello
           None w0 "<|im_start|>user" None None
           {| input_ids := [[11; 12; 13]%Z]; on_device := "cpu" |}
           {| input_ids := [[11; 12; 13]%Z]; on_device := "cuda" |}
           RuntimeError eq_refl eq_refl eq_refl eq_refl eq_refl eq_refl
           eq_refl).
Defined.

(** X13. Without [stream], when the decoding gives no text at all,
    [chat] raises [IndexError]; the engine has by then prepared,
    generated and decoded. *)
Theorem empty_decoding_raises_IndexError
    (self : Qwen2VLChatModel) (messages : list message)
    (generate_config : option dict) (w : world) (text : string)
    (images videos : vision) (inputs0 inputs : BatchFeature)
    (generated_ids : list (list Z)) :
  let kwargs := sync_kwargs (config_of generate_config) inputs in
  let trimmed := trim (input_ids inputs) generated_ids in
  truthy (stream_option generate_config) = false ->
  _transform_messages messages w = (Return messages, w) ->
  apply_chat_template (engine self) messages = Return text ->
  process_vision_info (engine self) messages = Return (images, videos) ->
  processor (engine self) [text] images videos = Return inputs0 ->
  to (engine self) inputs0 (_device self) = Return inputs ->
  finish (generate (engine self) kwargs) = Return generated_ids ->
  batch_decode (engine self) trimmed = Return [] ->
  exists w',
    chat self messages generate_config w = (Raise IndexError, w') /\
    new_calls w w' = [CallApplyChatTemplate messages;
                      CallProcessVisionInfo messages;
                      CallProcessor [text] images videos;
                      CallTo (_device self); CallGenerate kwargs;
                      CallBatchDecode trimmed].
Proof.
  intros kwargs trimmed Hs Hvalid Ht Hv Hp Hto Hg Hd.
  destruct (_generate_log self messages (config_of generate_config) w
              text images videos inputs0 inputs Ht Hv Hp Hto)
    as (w' & _ & Hlog).
  fold kwargs in Hlog. rewrite Hg in Hlog. cbn zeta in Hlog.
  fold trimmed in Hlog. rewrite Hd in Hlog. destruct Hlog as [Hcalls Hgen].
  exists w'. split; [|assumption].
  now rewrite chat_eq, Hvalid, Hs, Hgen.
Qed.

Lemma empty_decoding_raises_IndexError_witness :
  exists w',
    chat (sample_model run_empty) hello None w0 = (Raise IndexError, w') /\
    new_calls w0 w' =
      [CallApplyChatTemplate hello; CallProcessVisionInfo hello;
       CallProcessor ["<|im_start|>user"] None None; CallTo "cuda";
       CallGenerate
         (sync_kwargs ∅
            {| input_ids := [[11; 12; 13]%Z]; on_device := "cuda" |});
       CallBatchDecode []].
Proof.
  exact (empty_decoding_raises_IndexError (sample_model run_empty) hello
           None w0 "<|im_start|>user" None None
           {| input_ids := [[11; 12; 13]%Z]; on_device := "cpu" |}
           {| input_ids := [[11; 12; 13]%Z]; on_device := "cuda" |}
           [] eq_refl eq_refl eq_refl eq_refl eq_refl eq_refl eq_refl
           eq_refl).
Defined.

(** X14. Of a config, only [max_tokens] and [temperature] reach the
    engine: two configs that agree on these two give the same answer, the
    same engine operations and the same stream, whatever else they hold
    ([top_p], [stop], ...). *)
Theorem only_max_tokens_and_temperature_count
    (self : Qwen2VLChatModel) (messages : list message) (c1 c2 : dict)
    (w : world) :
  c1 !! "max_tokens" = c2 !! "max_tokens" ->
  c1 !! "temperature" = c2 !! "temperature" ->
  _generate self messages c1 w = _generate self messages c2 w /\
  forall fuel,
    consume fuel self (_generate_stream self messages c1) w
    = consume fuel self (_generate_stream self messages c2) w.
Proof.
  intros Hmax Htemp.
  assert (Hm : get c1 "max_tokens" (PyInt 512)
               = get c2 "max_tokens" (PyInt 512))
    by (unfold get; now rewrite Hmax).
  assert (Ht : get c1 "temperature" (PyInt 1) = get c2 "temperature" (PyInt 1))
    by (unfold get; now rewrite Htemp).
  split.
  - unfold _generate. now rewrite Hm, Ht.
  - intros [|fuel]; [reflexivity|].
    unfold _generate_stream. cbn [consume next].
    assert (Hstart : stream_start self messages c1 w
                     = stream_start self messages c2 w)
      by (unfold stream_start; now rewrite Hm, Ht).
    now rewrite Hstart.
Qed.

Lemma only_max_tokens_and_temperature_count_witness :
  _generate (sample_model run_ok) hello sampling_config w0
    = _generate (sample_model run_ok) hello plain_config w0 /\
  forall fuel,
    consume fuel (sample_model run_ok)
      (_generate_stream (sample_model run_ok) hello sampling_config) w0
    = consume fuel (sample_model run_ok)
        (_generate_stream (sample_model run_ok) hello plain_config) w0.
Proof.
  exact (only_max_tokens_and_temperature_count (sample_model run_ok) hello
           sampling_config plain_config w0 eq_refl eq_refl).
Defined.

(** X15. A value given for [max_tokens] is what [generate] gets as
    [max_new_tokens], and a value given for [temperature] is what it gets
    as [temperature], each on its own and also when the value is [None]:
    the defaults stand in for a missing key only. This holds for the one
    call [_generate] makes and for the one call the first pull of
    [_generate_stream] makes. *)
Theorem given_options_are_passed_on
    (self : Qwen2VLChatModel) (messages : list message) (config : dict)
    (w : world) :
  (forall inputs,
     prepare_on (engine self) messages (_device self) = Return inputs ->
     exists kwargs,
       generate_calls (new_calls w (_generate self messages config w).2)
         = [kwargs] /\
       kw_inputs kwargs = inputs /\ streamer kwargs = None /\
       (forall given, config !! "max_tokens" = Some given ->
                      max_new_tokens kwargs = given) /\
       (forall given, config !! "temperature" = Some given ->
                      temperature kwargs = given)) /\
  (forall inputs,
     prepare_on (engine self) messages (device (engine self))
       = Return inputs ->
     exists kwargs,
       generate_calls
         (new_calls w (next self (_generate_stream self messages config) w).2)
         = [kwargs] /\
       kw_inputs kwargs = inputs /\ streamer kwargs = Some the_streamer /\
       (forall given, config !! "max_tokens" = Some given ->
                      max_new_tokens kwargs = given) /\
       (forall given, config !! "temperature" = Some given ->
                      temperature kwargs = given)).
Proof.
  split; intros inputs Hp.
  - destruct (_generate_prepared self messages config w inputs Hp)
      as (w' & Hgen & _ & Hlog).
    exists (sync_kwargs config inputs). rewrite Hgen. cbn [snd].
    split; [exact Hlog|].
    unfold sync_kwargs, get; cbn.
    repeat split; intros given Hg; now rewrite Hg.
  - destruct (stream_start_Return self messages config w inputs Hp)
      as (w' & Hstart & _ & Hlog).
    exists (stream_kwargs config inputs). cbn [next _generate_stream].
    rewrite Hstart. destruct (stream_loop _ _ _ _ _ _) as [p it']. cbn [snd].
    split; [exact Hlog|].
    unfold stream_kwargs, get; cbn.
    repeat split; intros given Hg; now rewrite Hg.
Qed.

Lemma given_options_are_passed_on_witness :
  exists kwargs,
    generate_calls
      (new_calls w0
         (_generate (sample_model run_ok) hello only_max_tokens w0).2)
      = [kwargs] /\
    max_new_tokens kwargs = PyNone.
Proof.
  destruct (proj1 (given_options_are_passed_on (sample_model run_ok) hello
                     only_max_tokens w0)
              {| input_ids := [[11; 12; 13]%Z]; on_device := "cuda" |}
              eq_refl) as (kwargs & Hlog & _ & _ & Hmax & _).
  exists kwargs. split; [exact Hlog|]. exact (Hmax PyNone eq_refl).
Defined.

(** ** The pulls of a stream *)

Lemma started_as_started cid it : started_as cid it -> started it.
Proof. now destruct it. Qed.

(** Pulls on a generator that has started leave the world as it is. *)
Lemma consume_started_world self fuel : forall it w,
  started it -> (consume fuel self it w).2 = w.
Proof.
  induction fuel as [|fuel IH]; intros it w Hit; [reflexivity|].
  cbn [consume]. destruct (next self it w) as [[p it'] w'] eqn:Hnext.
  destruct it as [messages config|cid s thread queue error| |];
    [contradiction| | |].
  - apply next_InLoop in Hnext as (Hw & _ & Hs). subst w'.
    destruct p as [c| |]; [|reflexivity..].
    specialize (IH it' w (started_as_started _ _ Hs)).
    destruct (consume fuel self it' w) as [[chunks e] w1]. exact IH.
  - cbn in Hnext. now inversion Hnext.
  - cbn in Hnext. now inversion Hnext.
Qed.

(** X16. A stream does its engine operations and draws its identifier at
    the first pull. However many pulls follow, they perform no engine
    operation and draw nothing: the world after any number of pulls is
    the world after the first. *)
Theorem engine_work_is_done_at_the_first_pull
    (self : Qwen2VLChatModel) (messages : list message) (config : dict)
    (w : world) (fuel : nat) :
  (consume (S fuel) self (_generate_stream self messages config) w).2
  = (next self (_generate_stream self messages config) w).2.
Proof.
  unfold _generate_stream. cbn [consume].
  destruct (next self (Created messages config) w) as [[p it'] w'] eqn:Hnext.
  cbn [snd]. destruct p as [c| |]; [|reflexivity..].
  assert (Hit : started it').
  { apply next_Created in Hnext as [(_ & _ & Hp)|(_ & _ & Hs)].
    - now destruct (Hp c).
    - exact (started_as_started _ _ Hs). }
  pose proof (consume_started_world self fuel it' w' Hit) as Hw.
  destruct (consume fuel self it' w') as [[chunks e] w1]. exact Hw.
Qed.
